(** * Library catalogue: the book lending lifecycle and the listing contract

    A shallow embedding of [models/Book.js] (the Mongoose schema of a book
    and its three instance methods) and of [controllers/booksController.js]
    (the request handlers that sit in front of it), followed by the
    properties of the lending lifecycle and of the listing query.

    Modelling conventions.
    - A JavaScript [Date] is its time value: milliseconds since the epoch,
      an integer of at most 8.64e15 in absolute value; a time beyond that
      is the Invalid Date, which no path of a document can hold.
      [d.setDate(d.getDate() + n)] moves a date by [n] calendar days; in
      a zone without clock changes (UTC) that is [n] times 86400000 ms.
    - One request is served at one instant [now], a time the clock can
      show: every [new Date()] of a handler reads the same clock value.
    - A path that a document or a body does not have is [None].  In a
      stored document [null] is [None] as well (what [returnBook] assigns
      is what a new book lacks), and a nested [borrowedBy] object whose
      three sub-fields are absent is the empty object.  In a request body
      only the missing field is [None]: a default parameter replaces
      [undefined] alone, so [weeks: null], which JavaScript multiplies as
      0, is [Some 0].
    - A string is UTF-8 text; its length is counted in UTF-16 code units,
      as [String.prototype.length] counts it.
    - Numbers are integers: a fraction in a body has no counterpart here.
      The counters that the schema bounds below by 0 ([renewalCount],
      [maxRenewals], [totalReviews]) are naturals in a stored document
      and integers in a request body, where the validator rejects the
      negative ones.
    - A body is a JSON object of schema paths, listed in the order of the
      schema; update operators ([$inc], [$unset], ...) and paths outside
      the schema have no counterpart.
    - The collection is the list of its documents in insertion order. *)

From Stdlib Require Import ZArith NArith List String Ascii Bool Lia.
From Stdlib Require Import Permutation Sorted.
Import ListNotations.
Open Scope string_scope.
Open Scope list_scope.
Open Scope Z_scope.

(** ** Strings as JavaScript sees them *)

(** [!s] for a string-valued request field: absent or empty. *)
Definition falsy (o : option string) : bool :=
  match o with
  | None => true
  | Some s => (s =? "")%string
  end.

Definition truthy (o : option string) : bool := negb (falsy o).

(** White space removed by [String.prototype.trim]: the characters of
    one byte (TAB, LF, VT, FF, CR, SP), of two (U+00A0) and of three
    (U+1680, U+2000 to U+200A, U+2028, U+2029, U+202F, U+205F, U+3000,
    U+FEFF) in UTF-8. *)
Definition isSpace (c : ascii) : bool :=
  let n := nat_of_ascii c in
  ((n =? 32) || (n =? 9) || (n =? 10) || (n =? 11) || (n =? 12) || (n =? 13))%nat.

Definition isSpace2 (c1 c2 : ascii) : bool :=
  ((nat_of_ascii c1 =? 194) && (nat_of_ascii c2 =? 160))%nat.

Definition isSpace3 (c1 c2 c3 : ascii) : bool :=
  let a := nat_of_ascii c1 in
  let b := nat_of_ascii c2 in
  let c := nat_of_ascii c3 in
  ((a =? 225) && (b =? 154) && (c =? 128)
   || (a =? 226) && (b =? 128)
      && ((128 <=? c) && (c <=? 138) || (c =? 168) || (c =? 169) || (c =? 175))
   || (a =? 226) && (b =? 129) && (c =? 159)
   || (a =? 227) && (b =? 128) && (c =? 128)
   || (a =? 239) && (b =? 187) && (c =? 191))%nat.

Fixpoint trimStart (s : string) : string :=
  match s with
  | EmptyString => EmptyString
  | String c1 r1 =>
      if isSpace c1 then trimStart r1
      else
        match r1 with
        | String c2 r2 =>
            if isSpace2 c1 c2 then trimStart r2
            else
              match r2 with
              | String c3 r3 => if isSpace3 c1 c2 c3 then trimStart r3 else s
              | EmptyString => s
              end
        | EmptyString => s
        end
  end.

(** The string is white space from end to end. *)
Fixpoint allSpace (s : string) : bool :=
  match s with
  | EmptyString => true
  | String c1 r1 =>
      if isSpace c1 then allSpace r1
      else
        match r1 with
        | String c2 r2 =>
            if isSpace2 c1 c2 then allSpace r2
            else
              match r2 with
              | String c3 r3 => if isSpace3 c1 c2 c3 then allSpace r3 else false
              | EmptyString => false
              end
        | EmptyString => false
        end
  end.

Fixpoint trimEnd (s : string) : string :=
  match s with
  | EmptyString => EmptyString
  | String c r => if allSpace s then EmptyString else String c (trimEnd r)
  end.

(** The [trim: true] setter of a schema string. *)
Definition trim (s : string) : string := trimEnd (trimStart s).

(** The UTF-16 code units a byte of UTF-8 stands for: one for the first
    byte of a character of up to three bytes, two for the first byte of
    a character of four, none for a continuation byte. *)
Definition utf16Units (c : ascii) : Z :=
  let n := nat_of_ascii c in
  if (n <? 128)%nat then 1
  else if (n <? 192)%nat then 0
  else if (n <? 240)%nat then 1
  else 2.

(** [s.length]. *)
Fixpoint strlen (s : string) : Z :=
  match s with
  | EmptyString => 0
  | String c r => utf16Units c + strlen r
  end.

(** ** Object identifiers *)

(** An ObjectId is a 12-byte value; a request names one by 24 hexadecimal
    digits.  Anything else fails to cast. *)
Definition ObjectId := N.

Definition hexDigit (c : ascii) : option N :=
  let n := N_of_ascii c in
  if ((48 <=? n) && (n <=? 57))%N then Some (n - 48)%N
  else if ((97 <=? n) && (n <=? 102))%N then Some (n - 87)%N
  else if ((65 <=? n) && (n <=? 70))%N then Some (n - 55)%N
  else None.

Fixpoint parseHex (acc : N) (s : string) : option N :=
  match s with
  | EmptyString => Some acc
  | String c r =>
      match hexDigit c with
      | Some d => parseHex (16 * acc + d)%N r
      | None => None
      end
  end.

Definition castObjectId (raw : string) : option ObjectId :=
  if (String.length raw =? 24)%nat then parseHex 0%N raw else None.

(** ** Dates *)

Definition Date := Z.

Definition msPerDay : Z := 86400000.

(** The largest time value of a [Date]. *)
Definition maxTime : Z := 8640000000000000.

Definition validTime (t : Z) : bool := (- maxTime <=? t) && (t <=? maxTime).

(** The time a date moved by [n] days would show. *)
Definition plusDays (d : Date) (n : Z) : Z := d + n * msPerDay.

(** [d.setDate(d.getDate() + n)]: the date moved by [n] days, or the
    Invalid Date ([None]) when that is beyond the range of time values. *)
Definition addDays (d : Date) (n : Z) : option Date :=
  if validTime (plusDays d n) then Some (plusDays d n) else None.

(** ** The book document (models/Book.js, bookSchema) *)

(** The nested path [borrowedBy]. *)
Record Borrower := mkBorrower {
  userId : option ObjectId;
  name : option string;
  email : option string
}.

(** [{}] assigned to [borrowedBy]: no sub-field is set. *)
Definition noBorrower : Borrower :=
  {| userId := None; name := None; email := None |}.

Record Book := mkBook {
  _id : ObjectId;
  title : string;
  author : string;
  description : option string;
  genre : string;
  category : string;
  isbn : option string;
  coverUrl : string;
  coverImage : option string;
  publishedYear : option Z;
  rating : Z;
  totalReviews : N;
  available : bool;
  status : string;
  borrowedBy : Borrower;
  borrowedAt : option Date;
  dueDate : option Date;
  borrowDate : option Date;
  renewalCount : N;
  maxRenewals : N;
  tags : list string;
  isNewRelease : bool;
  createdAt : Date;
  updatedAt : Date
}.

(** The collection, in insertion order. *)
Definition Store := list Book.

(** Field assignments [this.f = v]; every other field is kept. *)
Definition set_available (v : bool) (b : Book) : Book :=
  mkBook (_id b) (title b) (author b) (description b) (genre b) (category b)
    (isbn b) (coverUrl b) (coverImage b) (publishedYear b) (rating b)
    (totalReviews b) v (status b) (borrowedBy b) (borrowedAt b) (dueDate b)
    (borrowDate b) (renewalCount b) (maxRenewals b) (tags b)
    (isNewRelease b) (createdAt b) (updatedAt b).

Definition set_status (v : string) (b : Book) : Book :=
  mkBook (_id b) (title b) (author b) (description b) (genre b) (category b)
    (isbn b) (coverUrl b) (coverImage b) (publishedYear b) (rating b)
    (totalReviews b) (available b) v (borrowedBy b) (borrowedAt b) (dueDate b)
    (borrowDate b) (renewalCount b) (maxRenewals b) (tags b)
    (isNewRelease b) (createdAt b) (updatedAt b).

Definition set_borrowedBy (v : Borrower) (b : Book) : Book :=
  mkBook (_id b) (title b) (author b) (description b) (genre b) (category b)
    (isbn b) (coverUrl b) (coverImage b) (publishedYear b) (rating b)
    (totalReviews b) (available b) (status b) v (borrowedAt b) (dueDate b)
    (borrowDate b) (renewalCount b) (maxRenewals b) (tags b)
    (isNewRelease b) (createdAt b) (updatedAt b).

Definition set_borrowedAt (v : option Date) (b : Book) : Book :=
  mkBook (_id b) (title b) (author b) (description b) (genre b) (category b)
    (isbn b) (coverUrl b) (coverImage b) (publishedYear b) (rating b)
    (totalReviews b) (available b) (status b) (borrowedBy b) v (dueDate b)
    (borrowDate b) (renewalCount b) (maxRenewals b) (tags b)
    (isNewRelease b) (createdAt b) (updatedAt b).

Definition set_dueDate (v : option Date) (b : Book) : Book :=
  mkBook (_id b) (title b) (author b) (description b) (genre b) (category b)
    (isbn b) (coverUrl b) (coverImage b) (publishedYear b) (rating b)
    (totalReviews b) (available b) (status b) (borrowedBy b) (borrowedAt b) v
    (borrowDate b) (renewalCount b) (maxRenewals b) (tags b)
    (isNewRelease b) (createdAt b) (updatedAt b).

Definition set_borrowDate (v : option Date) (b : Book) : Book :=
  mkBook (_id b) (title b) (author b) (description b) (genre b) (category b)
    (isbn b) (coverUrl b) (coverImage b) (publishedYear b) (rating b)
    (totalReviews b) (available b) (status b) (borrowedBy b) (borrowedAt b)
    (dueDate b) v (renewalCount b) (maxRenewals b) (tags b)
    (isNewRelease b) (createdAt b) (updatedAt b).

Definition set_renewalCount (v : N) (b : Book) : Book :=
  mkBook (_id b) (title b) (author b) (description b) (genre b) (category b)
    (isbn b) (coverUrl b) (coverImage b) (publishedYear b) (rating b)
    (totalReviews b) (available b) (status b) (borrowedBy b) (borrowedAt b)
    (dueDate b) (borrowDate b) v (maxRenewals b) (tags b)
    (isNewRelease b) (createdAt b) (updatedAt b).

Definition set_updatedAt (v : Date) (b : Book) : Book :=
  mkBook (_id b) (title b) (author b) (description b) (genre b) (category b)
    (isbn b) (coverUrl b) (coverImage b) (publishedYear b) (rating b)
    (totalReviews b) (available b) (status b) (borrowedBy b) (borrowedAt b)
    (dueDate b) (borrowDate b) (renewalCount b) (maxRenewals b) (tags b)
    (isNewRelease b) (createdAt b) v.

(** ** Exceptions and replies *)

(** One failed validator of a document.  [Message] carries the text the
    schema gives; the others stand for the text Mongoose writes for an
    enum violation and for a value that does not cast. *)
Inductive Violation :=
| Message (text : string)
| EnumViolation (path value : string)
| CastViolation (path value : string)
| DateViolation (path : string).        (* a date that does not cast *)

(** What a handler can find in its [catch (error)]. *)
Inductive Exn :=
| Error (message : string)                  (* throw new Error(message) *)
| CastError (path value : string)           (* error.kind === 'ObjectId' *)
| ValidationError (errors : list Violation) (* error.name === 'ValidationError' *)
| DuplicateKey                              (* error.code === 11000 *)
| DateCastError (path : string).            (* a CastError of kind 'date' *)

(** The [error] member of a reply: a literal of the handler, the list of
    validator messages, or the [message] of an exception of the driver. *)
Inductive ErrorBody :=
| Text (s : string)
| Messages (l : list Violation)
| MessageOf (e : Exn).

(** [error.message || fallback]. *)
Definition messageOr (e : Exn) (fallback : string) : ErrorBody :=
  match e with
  | Error m => if (m =? "")%string then Text fallback else Text m
  | _ => MessageOf e
  end.

Inductive Data :=
| NoData
| EmptyObject
| Doc (b : Book)
| Docs (l : list Book).

(** [res.status(code).json({ success, count, data, message, error })]. *)
Record Reply := mkReply {
  code : Z;
  success : bool;
  count : option nat;
  data : Data;
  message : option string;
  error : option ErrorBody
}.

Definition ok (c : Z) (d : Data) (m : option string) : Reply :=
  mkReply c true None d m None.

Definition fail (c : Z) (e : ErrorBody) : Reply :=
  mkReply c false None NoData None (Some e).

(** The error kinds of the lifecycle, as the replies that carry them. *)
Definition NotFound : Reply := fail 404 (Text "Book not found").
Definition InvalidInput : Reply :=
  fail 400 (Text "Please provide userId, userName, and userEmail").
Definition NotAvailable : Reply :=
  fail 400 (Text "Book is not available for borrowing").
Definition NotBorrowed : Reply :=
  fail 400 (Text "Cannot renew a book that is not borrowed").
Definition NotCurrentlyBorrowed : Reply :=
  fail 400 (Text "Book is not currently borrowed").
Definition RenewalLimitExceeded : Reply :=
  fail 400 (Text "Maximum renewal limit reached").
Definition DuplicateISBN : Reply :=
  fail 400 (Text "A book with this ISBN already exists").
Definition MissingTitleOrAuthor : Reply :=
  fail 400 (Text "Please provide title and author").

(** ** Promises over the collection

    An awaited operation reads and writes the collection and either
    resolves to a value or rejects with an exception. *)
Inductive Outcome (A : Type) :=
| Resolved (a : A)
| Rejected (e : Exn).
Arguments Resolved {A} a.
Arguments Rejected {A} e.

Definition Async (A : Type) : Type := Store -> Outcome A * Store.

Definition ret {A} (a : A) : Async A := fun s => (Resolved a, s).

Definition throw {A} (e : Exn) : Async A := fun s => (Rejected e, s).

Definition bind {A B} (m : Async A) (k : A -> Async B) : Async B :=
  fun s =>
    match m s with
    | (Resolved a, s') => k a s'
    | (Rejected e, s') => (Rejected e, s')
    end.

(** [try { ... } catch (error) { ... }] around a handler body: the reply
    of the body, or the reply the handler builds from the exception. *)
Definition tryCatch (body : Async Reply) (handler : Exn -> Reply)
  : Store -> Reply * Store :=
  fun s =>
    match body s with
    | (Resolved r, s') => (r, s')
    | (Rejected e, s') => (handler e, s')
    end.

Declare Scope async_scope.
Delimit Scope async_scope with async.
Notation "x <- m ;; k" := (bind m (fun x => k))
  (at level 100, m at next level, right associativity) : async_scope.
Open Scope async_scope.

(** ** Request shapes *)

(** The body of POST /api/books and PUT /api/books/:id: any subset of the
    schema paths.  Identifiers travel as strings. *)
Module Body.
Record borrower := mkBorrower {
  userId : option string;
  name : option string;
  email : option string
}.

Record t := mk {
  title : option string;
  author : option string;
  description : option string;
  genre : option string;
  category : option string;
  isbn : option string;
  coverUrl : option string;
  coverImage : option string;
  publishedYear : option Z;
  rating : option Z;
  totalReviews : option Z;
  available : option bool;
  status : option string;
  borrowedBy : option borrower;
  borrowedAt : option Date;
  dueDate : option Date;
  borrowDate : option Date;
  renewalCount : option Z;
  maxRenewals : option Z;
  tags : option (list string);
  isNewRelease : option bool
}.

(** A body that names no path. *)
Definition empty : t :=
  mk None None None None None None None None None None None None None
     None None None None None None None None.

(** [{ title, author }]. *)
Definition titled (ti au : string) : t :=
  mk (Some ti) (Some au) None None None None None None None None None None
     None None None None None None None None None.

(** [{ title, author, isbn }]. *)
Definition withIsbn (ti au i : string) : t :=
  mk (Some ti) (Some au) None None None (Some i) None None None None None
     None None None None None None None None None None.
End Body.

(** The body of POST /api/books/:id/borrow. *)
Module BorrowBody.
Record t := mk {
  userId : option string;
  userName : option string;
  userEmail : option string;
  weeks : option Z
}.
End BorrowBody.

(** The body of POST /api/books/:id/renew. *)
Module RenewBody.
Record t := mk { weeks : option Z }.
End RenewBody.

(** [req.query] of GET /api/books: every parameter is a string. *)
Module Query.
Record t := mk {
  q : option string;
  category : option string;
  genre : option string;
  available : option string;
  status : option string
}.
End Query.

(** The filter object handed to [Book.find]: a key that is absent
    constrains nothing. *)
Module Filter.
Record t := mk {
  text : option string;          (* $text: { $search } *)
  category : option string;
  genre : option string;
  available : option bool;
  status : option string
}.

Definition empty : t := mk None None None None None.
Definition set_text (v : string) (f : t) : t :=
  mk (Some v) (category f) (genre f) (available f) (status f).
Definition set_category (v : string) (f : t) : t :=
  mk (text f) (Some v) (genre f) (available f) (status f).
Definition set_genre (v : string) (f : t) : t :=
  mk (text f) (category f) (Some v) (available f) (status f).
Definition set_available (v : bool) (f : t) : t :=
  mk (text f) (category f) (genre f) (Some v) (status f).
Definition set_status (v : string) (f : t) : t :=
  mk (text f) (category f) (genre f) (available f) (Some v).
End Filter.

Definition default {A} (d : A) (o : option A) : A :=
  match o with
  | Some a => a
  | None => d
  end.

Definition isSome {A} (o : option A) : bool :=
  match o with
  | Some _ => true
  | None => false
  end.

Definition option_eqb {A} (eqb : A -> A -> bool) (x y : option A) : bool :=
  match x, y with
  | Some a, Some b => eqb a b
  | None, None => true
  | _, _ => false
  end.

(** The schema's [enum] for [status]. *)
Definition statusEnum : list string :=
  ["Available"; "Borrowed"; "Reserved"; "Checked Out"].

Definition inEnum (s : string) : bool :=
  existsb (fun e => (e =? s)%string) statusEnum.

Definition defaultCoverUrl : string :=
  "https://images.unsplash.com/photo-1544947950-fa07a98d237f?w=300&h=400&fit=crop&auto=format".

(** The nested [borrowedBy] of a body, cast to the schema. *)
Definition castBorrower (b : Body.borrower) : Borrower :=
  {| userId := match Body.userId b with
               | Some raw => castObjectId raw
               | None => None
               end;
     name := Body.name b;
     email := Body.email b |}.

Section Catalogue.

(** [new Date().getFullYear() + 1], read once when the schema is built. *)
Variable maxYear : Z.

(** The [$text] index of the collection: whether a document matches a
    search string.  The tokenisation is the database's. *)
Variable textMatch : string -> Book -> bool.

(** ** Validators of the schema *)

Definition checkRequired (requireAll : bool) (o : option string)
    (missing : string) (limit : Z) (tooLong : string) : list Violation :=
  match o with
  | None => if requireAll then [Message missing] else []
  | Some s =>
      if (trim s =? "")%string then [Message missing]
      else if limit <? strlen (trim s) then [Message tooLong]
      else []
  end.

Definition checkMaxLength (o : option string) (limit : Z) (tooLong : string)
    : list Violation :=
  match o with
  | Some s => if limit <? strlen (trim s) then [Message tooLong] else []
  | None => []
  end.

Definition checkMin (o : option Z) (lo : Z) (tooSmall : string)
    : list Violation :=
  match o with
  | Some v => if v <? lo then [Message tooSmall] else []
  | None => []
  end.

Definition checkMax (o : option Z) (hi : Z) (tooLarge : string)
    : list Violation :=
  match o with
  | Some v => if hi <? v then [Message tooLarge] else []
  | None => []
  end.

Definition checkEnum (o : option string) : list Violation :=
  match o with
  | Some s => if inEnum s then [] else [EnumViolation "status" s]
  | None => []
  end.

Definition checkBorrower (o : option Body.borrower) : list Violation :=
  match o with
  | Some b =>
      match Body.userId b with
      | Some raw =>
          if isSome (castObjectId raw) then []
          else [CastViolation "borrowedBy.userId" raw]
      | None => []
      end
  | None => []
  end.

Definition checkDate (path : string) (o : option Date) : list Violation :=
  match o with
  | Some t => if validTime t then [] else [DateViolation path]
  | None => []
  end.

(** The values of a body that do not cast to the type of their path, in
    the order of the body. *)
Definition castFailures (body : Body.t) : list Violation :=
  checkBorrower (Body.borrowedBy body)
  ++ checkDate "borrowedAt" (Body.borrowedAt body)
  ++ checkDate "dueDate" (Body.dueDate body)
  ++ checkDate "borrowDate" (Body.borrowDate body).

(** The violated validators of a body, in schema order.  A new document
    is checked on every path ([requireAll]); an update only on the paths
    it sets. *)
Definition validatorFailures (requireAll : bool) (body : Body.t)
    : list Violation :=
  checkRequired requireAll (Body.title body)
    "Book title is required" 200 "Title cannot exceed 200 characters"
  ++ checkRequired requireAll (Body.author body)
    "Author name is required" 100 "Author name cannot exceed 100 characters"
  ++ checkMaxLength (Body.description body)
    1000 "Description cannot exceed 1000 characters"
  ++ checkMin (Body.publishedYear body) 1000 "Invalid year"
  ++ checkMax (Body.publishedYear body) maxYear "Year cannot be in the future"
  ++ checkMin (Body.rating body) 0 "Rating must be at least 0"
  ++ checkMax (Body.rating body) 5 "Rating cannot exceed 5"
  ++ checkMin (Body.totalReviews body) 0 "Total reviews cannot be negative"
  ++ checkEnum (Body.status body)
  ++ checkMin (Body.renewalCount body) 0 "Renewal count cannot be negative"
  ++ checkMin (Body.maxRenewals body) 0 "Max renewals cannot be negative".

(** The errors of a [ValidationError], in the order of its [errors].  A
    new document records the values that do not cast while it is built,
    before any validator runs; an update is validated on the paths of its
    [$set], which lists them in the reverse order of the body, and
    throws on a value that does not cast before it is validated at all
    ([updateCast]). *)
Definition violations (requireAll : bool) (body : Body.t) : list Violation :=
  if requireAll then castFailures body ++ validatorFailures true body
  else rev (validatorFailures false body).

(** The [CastError] an update throws on the first value of its body that
    does not cast: of kind 'ObjectId' for a borrower identifier, of
    kind 'date' for a date. *)
Definition updateCast (body : Body.t) : option Exn :=
  match castFailures body with
  | CastViolation path value :: _ => Some (CastError path value)
  | DateViolation path :: _ => Some (DateCastError path)
  | _ => None
  end.

(** ** The model: statics of [Book] *)

(** A new document: the paths of the body through their setters, the
    schema defaults for the rest, both timestamps at [now]. *)
Definition newDocument (oid : ObjectId) (now : Date) (body : Body.t) : Book :=
  {| _id := oid;
     title := trim (default "" (Body.title body));
     author := trim (default "" (Body.author body));
     description := option_map trim (Body.description body);
     genre := trim (default "General" (Body.genre body));
     category := trim (default "General" (Body.category body));
     isbn := option_map trim (Body.isbn body);
     coverUrl := trim (default defaultCoverUrl (Body.coverUrl body));
     coverImage := option_map trim (Body.coverImage body);
     publishedYear := Body.publishedYear body;
     rating := default 0 (Body.rating body);
     totalReviews := Z.to_N (default 0 (Body.totalReviews body));
     available := default true (Body.available body);
     status := default "Available" (Body.status body);
     borrowedBy := default noBorrower (option_map castBorrower (Body.borrowedBy body));
     borrowedAt := Body.borrowedAt body;
     dueDate := Body.dueDate body;
     borrowDate := Body.borrowDate body;
     renewalCount := Z.to_N (default 0 (Body.renewalCount body));
     maxRenewals := Z.to_N (default 2 (Body.maxRenewals body));
     tags := map trim (default [] (Body.tags body));
     isNewRelease := default false (Body.isNewRelease body);
     createdAt := now;
     updatedAt := now |}.

(** An identifier no document of the collection has. *)
Definition newObjectId (s : Store) : ObjectId :=
  N.succ (fold_right N.max 0%N (map _id s)).

(** The unique sparse index on [isbn]: a document that has the path
    collides with another one that holds the same value. *)
Definition isbnTaken (i : option string) (s : Store) : bool :=
  match i with
  | Some v => existsb (fun d => option_eqb String.eqb (isbn d) (Some v)) s
  | None => false
  end.

(** [Book.create(body)]. *)
Definition Book_create (now : Date) (body : Body.t) : Async Book :=
  fun s =>
    match violations true body with
    | [] =>
        let doc := newDocument (newObjectId s) now body in
        if isbnTaken (isbn doc) s then (Rejected DuplicateKey, s)
        else (Resolved doc, s ++ [doc])
    | vs => (Rejected (ValidationError vs), s)
    end.

Definition lookup (oid : ObjectId) (s : Store) : option Book :=
  find (fun d => (_id d =? oid)%N) s.

(** [Book.findById(id)]. *)
Definition Book_findById (id : string) : Async (option Book) :=
  fun s =>
    match castObjectId id with
    | Some oid => (Resolved (lookup oid s), s)
    | None => (Rejected (CastError "_id" id), s)
    end.

(** The stored document with the identifier of [doc] becomes [doc]. *)
Definition replaceDoc (doc : Book) (s : Store) : Store :=
  map (fun d => if (_id d =? _id doc)%N then doc else d) s.

(** [doc.save()] of a loaded document: [updatedAt] moves to [now] and the
    document is written back. *)
Definition save (now : Date) (doc : Book) : Async Book :=
  fun s =>
    let doc := set_updatedAt now doc in
    (Resolved doc, replaceDoc doc s).

(** [$set] of the paths a body names. *)
Definition applyUpdate (now : Date) (body : Body.t) (b : Book) : Book :=
  {| _id := _id b;
     title := default (title b) (option_map trim (Body.title body));
     author := default (author b) (option_map trim (Body.author body));
     description :=
       match Body.description body with
       | Some d => Some (trim d)
       | None => description b
       end;
     genre := default (genre b) (option_map trim (Body.genre body));
     category := default (category b) (option_map trim (Body.category body));
     isbn :=
       match Body.isbn body with
       | Some i => Some (trim i)
       | None => isbn b
       end;
     coverUrl := default (coverUrl b) (option_map trim (Body.coverUrl body));
     coverImage :=
       match Body.coverImage body with
       | Some c => Some (trim c)
       | None => coverImage b
       end;
     publishedYear :=
       match Body.publishedYear body with
       | Some y => Some y
       | None => publishedYear b
       end;
     rating := default (rating b) (Body.rating body);
     totalReviews := default (totalReviews b) (option_map Z.to_N (Body.totalReviews body));
     available := default (available b) (Body.available body);
     status := default (status b) (Body.status body);
     borrowedBy := default (borrowedBy b) (option_map castBorrower (Body.borrowedBy body));
     borrowedAt :=
       match Body.borrowedAt body with
       | Some d => Some d
       | None => borrowedAt b
       end;
     dueDate :=
       match Body.dueDate body with
       | Some d => Some d
       | None => dueDate b
       end;
     borrowDate :=
       match Body.borrowDate body with
       | Some d => Some d
       | None => borrowDate b
       end;
     renewalCount := default (renewalCount b) (option_map Z.to_N (Body.renewalCount body));
     maxRenewals := default (maxRenewals b) (option_map Z.to_N (Body.maxRenewals body));
     tags := default (tags b) (option_map (map trim) (Body.tags body));
     isNewRelease := default (isNewRelease b) (Body.isNewRelease body);
     createdAt := createdAt b;
     updatedAt := now |}.

(** [Book.findByIdAndUpdate(id, body, { new: true, runValidators: true })]. *)
Definition Book_findByIdAndUpdate (now : Date) (id : string) (body : Body.t)
    : Async (option Book) :=
  fun s =>
    match castObjectId id with
    | None => (Rejected (CastError "_id" id), s)
    | Some oid =>
        match updateCast body with
        | Some e => (Rejected e, s)
        | None =>
            match violations false body with
            | [] =>
                match lookup oid s with
                | None => (Resolved None, s)
                | Some b =>
                    let doc := applyUpdate now body b in
                    if isSome (Body.isbn body)
                       && isbnTaken (isbn doc)
                            (filter (fun d => negb (_id d =? oid)%N) s)
                    then (Rejected DuplicateKey, s)
                    else (Resolved (Some doc), replaceDoc doc s)
                end
            | vs => (Rejected (ValidationError vs), s)
            end
        end
    end.

(** [Book.findByIdAndDelete(id)]. *)
Definition Book_findByIdAndDelete (id : string) : Async (option Book) :=
  fun s =>
    match castObjectId id with
    | None => (Rejected (CastError "_id" id), s)
    | Some oid =>
        match lookup oid s with
        | None => (Resolved None, s)
        | Some b => (Resolved (Some b), filter (fun d => negb (_id d =? oid)%N) s)
        end
    end.

(** Whether a document satisfies a filter object. *)
Definition matches (f : Filter.t) (b : Book) : bool :=
  match Filter.text f with Some v => textMatch v b | None => true end
  && match Filter.category f with Some v => (category b =? v)%string | None => true end
  && match Filter.genre f with Some v => (genre b =? v)%string | None => true end
  && match Filter.available f with Some v => Bool.eqb (available b) v | None => true end
  && match Filter.status f with Some v => (status b =? v)%string | None => true end.

(** [.sort({ createdAt: -1 })]: newest first. *)
Fixpoint insertNewestFirst (b : Book) (l : list Book) : list Book :=
  match l with
  | [] => [b]
  | x :: r =>
      if createdAt x <=? createdAt b then b :: l
      else x :: insertNewestFirst b r
  end.

Definition sortNewestFirst (l : list Book) : list Book :=
  fold_right insertNewestFirst [] l.

(** [Book.find(query).sort({ createdAt: -1 }).lean()]. *)
Definition Book_find (f : Filter.t) : Async (list Book) :=
  fun s => (Resolved (sortNewestFirst (filter (matches f) s)), s).

(** ** The model: instance methods (models/Book.js) *)


(** The assignments of a borrower identifier and of a due date that did
    not cast, as [save()] reports them. *)
Definition assignmentFailures (userId : string) (uid : option ObjectId)
    (dueDate : option Date) : list Violation :=
  (if isSome uid then [] else [CastViolation "borrowedBy.userId" userId])
  ++ (if isSome dueDate then [] else [DateViolation "dueDate"]).

(** [book.borrowBook(userId, userName, userEmail, weeks = 3)].  A borrower
    identifier that does not cast to the schema type, and a due date
    that is the Invalid Date, are recorded when they are assigned and
    make [save()] reject with a validation error: nothing is written. *)
Definition Book_borrowBook (now : Date) (userId userName userEmail : string)
    (weeks : option Z) (this : Book) : Async Book :=
  let weeks := default 3 weeks in
  let this := set_available false this in
  let this := set_status "Borrowed" this in
  let uid := castObjectId userId in
  let this :=
    set_borrowedBy (mkBorrower uid (Some userName) (Some userEmail)) this in
  let this := set_borrowedAt (Some now) this in
  let this := set_borrowDate (Some now) this in
  let dueDate := addDays now (weeks * 7) in
  let this := set_dueDate dueDate this in
  match assignmentFailures userId uid dueDate with
  | [] => save now this
  | errors => throw (ValidationError errors)
  end.

(** [book.returnBook()]. *)
Definition Book_returnBook (now : Date) (this : Book) : Async Book :=
  let this := set_available true this in
  let this := set_status "Available" this in
  let this := set_borrowedBy noBorrower this in
  let this := set_borrowedAt None this in
  let this := set_borrowDate None this in
  let this := set_dueDate None this in
  let this := set_renewalCount 0%N this in
  save now this.

(** [book.renewBook(weeks = 2)]. *)
Definition Book_renewBook (now : Date) (weeks : option Z) (this : Book)
    : Async Book :=
  let weeks := default 2 weeks in
  if (maxRenewals this <=? renewalCount this)%N then
    throw (Error "Maximum renewal limit reached")
  else
    match dueDate this with
    | None => throw (Error "Cannot renew a book that is not borrowed")
    | Some due =>
        let newDueDate := addDays due (weeks * 7) in
        let this := set_dueDate newDueDate this in
        let this := set_renewalCount (renewalCount this + 1)%N this in
        match newDueDate with
        | Some _ => save now this
        | None =>
            (* the Invalid Date did not cast: [save()] rejects *)
            throw (ValidationError [DateViolation "dueDate"])
        end
    end.

(** ** The handlers (controllers/booksController.js) *)

(** Building the filter object from [req.query]. *)
Definition buildQuery (query : Query.t) : Filter.t :=
  let f := Filter.empty in
  let f := if truthy (Query.q query)
           then Filter.set_text (default "" (Query.q query)) f else f in
  let f := if truthy (Query.category query)
           then Filter.set_category (default "" (Query.category query)) f else f in
  let f := if truthy (Query.genre query)
           then Filter.set_genre (default "" (Query.genre query)) f else f in
  let f := match Query.available query with
           | Some a => Filter.set_available (a =? "true")%string f
           | None => f
           end in
  let f := if truthy (Query.status query)
           then Filter.set_status (default "" (Query.status query)) f else f in
  f.

(** GET /api/books *)
Definition getAllBooks (query : Query.t) : Store -> Reply * Store :=
  tryCatch
    (books <- Book_find (buildQuery query) ;;
     ret (mkReply 200 true (Some (List.length books)) (Docs books) None None))
    (fun _ => fail 500 (Text "Server error while fetching books")).

(** GET /api/books/:id *)
Definition getBookById (id : string) : Store -> Reply * Store :=
  tryCatch
    (book <- Book_findById id ;;
     match book with
     | None => ret NotFound
     | Some b => ret (ok 200 (Doc b) None)
     end)
    (fun e =>
       match e with
       | CastError _ _ => NotFound
       | _ => fail 500 (Text "Server error while fetching book")
       end).

(** POST /api/books *)
Definition createBook (now : Date) (body : Body.t) : Store -> Reply * Store :=
  tryCatch
    (if falsy (Body.title body) || falsy (Body.author body) then
       ret MissingTitleOrAuthor
     else
       book <- Book_create now body ;;
       ret (ok 201 (Doc book) None))
    (fun e =>
       match e with
       | ValidationError vs => fail 400 (Messages vs)
       | DuplicateKey => DuplicateISBN
       | _ => fail 500 (Text "Server error while creating book")
       end).

(** PUT /api/books/:id *)
Definition updateBook (now : Date) (id : string) (body : Body.t)
    : Store -> Reply * Store :=
  tryCatch
    (book <- Book_findByIdAndUpdate now id body ;;
     match book with
     | None => ret NotFound
     | Some b => ret (ok 200 (Doc b) None)
     end)
    (fun e =>
       match e with
       | ValidationError vs => fail 400 (Messages vs)
       | CastError _ _ => NotFound
       | _ => fail 500 (Text "Server error while updating book")
       end).

(** DELETE /api/books/:id *)
Definition deleteBook (id : string) : Store -> Reply * Store :=
  tryCatch
    (book <- Book_findByIdAndDelete id ;;
     match book with
     | None => ret NotFound
     | Some _ => ret (ok 200 EmptyObject (Some "Book deleted successfully"))
     end)
    (fun e =>
       match e with
       | CastError _ _ => NotFound
       | _ => fail 500 (Text "Server error while deleting book")
       end).

(** POST /api/books/:id/borrow *)
Definition borrowBook (now : Date) (id : string) (body : BorrowBody.t)
    : Store -> Reply * Store :=
  tryCatch
    (if falsy (BorrowBody.userId body) || falsy (BorrowBody.userName body)
        || falsy (BorrowBody.userEmail body) then
       ret InvalidInput
     else
       book <- Book_findById id ;;
       match book with
       | None => ret NotFound
       | Some b =>
           if negb (available b) then ret NotAvailable
           else
             b' <- Book_borrowBook now
                     (default "" (BorrowBody.userId body))
                     (default "" (BorrowBody.userName body))
                     (default "" (BorrowBody.userEmail body))
                     (BorrowBody.weeks body) b ;;
             ret (ok 200 (Doc b') (Some "Book borrowed successfully"))
       end)
    (fun e => fail 500 (messageOr e "Server error while borrowing book")).

(** POST /api/books/:id/return *)
Definition returnBook (now : Date) (id : string) : Store -> Reply * Store :=
  tryCatch
    (book <- Book_findById id ;;
     match book with
     | None => ret NotFound
     | Some b =>
         if available b then ret NotCurrentlyBorrowed
         else
           b' <- Book_returnBook now b ;;
           ret (ok 200 (Doc b') (Some "Book returned successfully"))
     end)
    (fun e => fail 500 (messageOr e "Server error while returning book")).

(** POST /api/books/:id/renew *)
Definition renewBook (now : Date) (id : string) (body : RenewBody.t)
    : Store -> Reply * Store :=
  tryCatch
    (book <- Book_findById id ;;
     match book with
     | None => ret NotFound
     | Some b =>
         b' <- Book_renewBook now (RenewBody.weeks body) b ;;
         ret (ok 200 (Doc b') (Some "Book renewed successfully"))
     end)
    (fun e => fail 400 (messageOr e "Server error while renewing book")).

(** ** Requests and reachable collections *)

Inductive Request :=
| Create (now : Date) (body : Body.t)
| Update (now : Date) (id : string) (body : Body.t)
| Borrow (now : Date) (id : string) (body : BorrowBody.t)
| Return (now : Date) (id : string)
| Renew (now : Date) (id : string) (body : RenewBody.t).

Definition handle (r : Request) : Store -> Reply * Store :=
  match r with
  | Create now body => createBook now body
  | Update now id body => updateBook now id body
  | Borrow now id body => borrowBook now id body
  | Return now id => returnBook now id
  | Renew now id body => renewBook now id body
  end.

(** The collections that requests satisfying [P] build from the empty
    collection. *)
Inductive ReachableBy (P : Request -> Prop) : Store -> Prop :=
| reach_empty : ReachableBy P []
| reach_step (s : Store) (r : Request) :
    ReachableBy P s -> P r -> ReachableBy P (snd (handle r s)).

Definition Reachable : Store -> Prop := ReachableBy (fun _ => True).

(** Requests that leave the renewal counters to the lifecycle: a Create
    or an Update that names neither [renewalCount] nor [maxRenewals]. *)
Definition leavesCounters (r : Request) : Prop :=
  match r with
  | Create _ body =>
      Body.renewalCount body = None /\ Body.maxRenewals body = None
  | Update _ _ body =>
      Body.renewalCount body = None /\ Body.maxRenewals body = None
  | _ => True
  end.

(** ** The vocabulary of the specification *)

(** [borrowedBy], [borrowedAt] and [dueDate] are all absent. *)
Definition lendingAbsent (b : Book) : Prop :=
  borrowedBy b = noBorrower /\ borrowedAt b = None /\ dueDate b = None.

(** The three encodings of the lending state agree. *)
Definition encodingsAgree (b : Book) : Prop :=
  (available b = true <-> status b = "Available")
  /\ (status b = "Available" <-> lendingAbsent b).

(** A Create or Update body that names none of the paths that encode the
    lending state. *)
Definition namesNoLendingPath (body : Body.t) : Prop :=
  Body.available body = None /\ Body.status body = None
  /\ Body.borrowedBy body = None /\ Body.borrowedAt body = None
  /\ Body.dueDate body = None.

(** A Create body the handler and the validators accept. *)
Definition acceptable (body : Body.t) : Prop :=
  falsy (Body.title body) = false /\ falsy (Body.author body) = false
  /\ violations true body = [].






Definition newestFirst (a b : Book) : Prop := createdAt b <= createdAt a.

(** ** Sample data *)

(** The identifier [newObjectId] gives the first document of an empty
    collection, and the identifier of a reader. *)
Definition firstId : string := "000000000000000000000001".
Definition readerId : string := "0000000000000000000000aa".

Definition orwell : Body.t := Body.titled "1984" "George Orwell".

Definition orwellUnavailable : Body.t :=
  Body.mk (Some "1984") (Some "George Orwell") None None None None None None
    None None None (Some false) None None None None None None None None None.

Definition orwellReserved : Body.t :=
  Body.mk (Some "1984") (Some "George Orwell") None None None None None None
    None None None None (Some "Reserved") None None None None None None None
    None.

Definition orwellDue : Body.t :=
  Body.mk (Some "1984") (Some "George Orwell") None None None None None None
    None None None None None None None (Some 1000) None None None None None.

Definition orwellWorn : Body.t :=
  Body.mk (Some "1984") (Some "George Orwell") None None None None None None
    None None None (Some false) (Some "Borrowed") None None None None (Some 5)
    None None None.

Definition orwellNoRenewals : Body.t :=
  Body.mk (Some "1984") (Some "George Orwell") None None None None None None
    None None None None None None None None None None (Some 0) None None.

Definition capAtOne : Body.t :=
  Body.mk None None None None None None None None None None None None None
    None None None None None (Some 1) None None.

Definition reader : BorrowBody.t :=
  BorrowBody.mk (Some readerId) (Some "John Doe") (Some "john@example.com") None.

Definition readerFromReadme : BorrowBody.t :=
  BorrowBody.mk (Some "user123") (Some "John Doe") (Some "john@example.com") None.

Definition anonymous : BorrowBody.t :=
  BorrowBody.mk (Some readerId) None (Some "john@example.com") None.


Definition secondId : string := "000000000000000000000002".

Definition gatsby : Body.t :=
  Body.withIsbn "The Great Gatsby" "F. Scott Fitzgerald" "978-0-7432-7356-5".

Definition gatsbyAgain : Body.t :=
  Body.withIsbn "The Great Gatsby (reprint)" "F. Scott Fitzgerald"
    "978-0-7432-7356-5".

Definition mockingbird : Body.t := Body.titled "To Kill a Mockingbird" "Harper Lee".

Definition noWeeks : RenewBody.t := RenewBody.mk None.

(** One book, created at time 0; the same shelf after a loan at time 100,
    after one renewal, and after two. *)
Definition shelf : Store := snd (createBook 0 orwell []).
Definition lentShelf : Store := snd (borrowBook 100 firstId reader shelf).
Definition renewedOnce : Store := snd (renewBook 200 firstId noWeeks lentShelf).

(** The same history as a sequence of requests, then an Update that
    lowers the cap to 1; and a shelf whose only book was created with
    [renewalCount: 5]. *)
Definition twiceRenewed : Store :=
  snd (handle (Renew 300 firstId noWeeks)
    (snd (handle (Renew 200 firstId noWeeks)
      (snd (handle (Borrow 100 firstId reader)
        (snd (handle (Create 0 orwell) []))))))).
Definition capLowered : Store :=
  snd (handle (Update 400 firstId capAtOne) twiceRenewed).
Definition wornShelf : Store := snd (handle (Create 0 orwellWorn) []).

(** A text index that matches every search. *)
Definition anyText (q : string) (b : Book) : bool := true.

(** ** The rest of the model and the code around the handlers *)

(** [Book.findAvailable()] and [Book.findBorrowed()] (models/Book.js):
    [this.find] with a two-key filter, in the order of the collection. *)
Definition Book_findAvailable : Async (list Book) :=
  fun s =>
    (Resolved
       (filter
          (matches (Filter.set_status "Available"
                      (Filter.set_available true Filter.empty))) s), s).

Definition Book_findBorrowed : Async (list Book) :=
  fun s =>
    (Resolved
       (filter
          (matches (Filter.set_status "Borrowed"
                      (Filter.set_available false Filter.empty))) s), s).

(** Every request of routes/api/books.js. *)
Inductive Command :=
| Write (r : Request)
| Delete (id : string)
| Get (id : string)
| ListAll (query : Query.t).

Definition serve (c : Command) : Store -> Reply * Store :=
  match c with
  | Write r => handle r
  | Delete id => deleteBook id
  | Get id => getBookById id
  | ListAll query => getAllBooks query
  end.

(** The collections the API builds from the empty one. *)
Inductive Served : Store -> Prop :=
| served_empty : Served []
| served_step (s : Store) (c : Command) :
    Served s -> Served (snd (serve c s)).


(** What the schema's validators demand of a stored document. *)
Definition schemaValid (b : Book) : Prop :=
  title b <> "" /\ strlen (title b) <= 200
  /\ author b <> "" /\ strlen (author b) <= 100
  /\ (forall d, description b = Some d -> strlen d <= 1000)
  /\ (forall y, publishedYear b = Some y -> 1000 <= y <= maxYear)
  /\ 0 <= rating b <= 5
  /\ In (status b) statusEnum.

(** What the validators demand of a body: of every path when a document
    is created ([requireAll]), of the paths it names when one is
    updated. *)
Definition withinBounds (limit : Z) (o : option string) : Prop :=
  forall v, o = Some v -> strlen (trim v) <= limit.

Definition nonBlank (requireAll : bool) (o : option string) : Prop :=
  match o with
  | Some v => trim v <> ""
  | None => requireAll = false
  end.

Definition atLeast (lo : Z) (o : option Z) : Prop :=
  forall v, o = Some v -> lo <= v.

Definition atMost (hi : Z) (o : option Z) : Prop :=
  forall v, o = Some v -> v <= hi.

Definition bodyValid (requireAll : bool) (body : Body.t) : Prop :=
  nonBlank requireAll (Body.title body) /\ withinBounds 200 (Body.title body)
  /\ nonBlank requireAll (Body.author body) /\ withinBounds 100 (Body.author body)
  /\ withinBounds 1000 (Body.description body)
  /\ atLeast 1000 (Body.publishedYear body) /\ atMost maxYear (Body.publishedYear body)
  /\ atLeast 0 (Body.rating body) /\ atMost 5 (Body.rating body)
  /\ atLeast 0 (Body.totalReviews body)
  /\ (forall v, Body.status body = Some v -> In v statusEnum)
  /\ atLeast 0 (Body.renewalCount body)
  /\ atLeast 0 (Body.maxRenewals body).

(** What the types of the schema demand of a body: a borrower
    identifier that is an ObjectId, dates that are time values. *)
Definition validDate (o : option Date) : Prop :=
  forall t, o = Some t -> validTime t = true.

Definition bodyCasts (body : Body.t) : Prop :=
  (forall b raw, Body.borrowedBy body = Some b -> Body.userId b = Some raw ->
     castObjectId raw <> None)
  /\ validDate (Body.borrowedAt body)
  /\ validDate (Body.dueDate body)
  /\ validDate (Body.borrowDate body).

(** No two records share an identifier, and no two share an ISBN. *)
Definition idsUnique (s : Store) : Prop := NoDup (map _id s).

Definition isbnUnique (s : Store) : Prop :=
  forall d1 d2 i,
    In d1 s -> In d2 s -> isbn d1 = Some i -> isbn d2 = Some i -> d1 = d2.

(** Records that hold the same ISBN have the same identifier. *)
Definition isbnApart (s : Store) : Prop :=
  forall d1 d2 i,
    In d1 s -> In d2 s -> isbn d1 = Some i -> isbn d2 = Some i ->
    _id d1 = _id d2.




(** *** The admin listing (controllers/adminBooksController.js, listBooks)

    [page] and [limit] are the positive integers the pager carries; they
    default to 1 and 20. *)
Record BooksView := mkBooksView {
  books : list Book;
  searchQuery : string;
  currentPage : nat;
  totalPages : nat;
  totalBooks : nat
}.

(** [Math.ceil(a / b)] for a count [a] and a positive [b]. *)
Definition ceilDiv (a b : nat) : nat := ((a + b - 1) / b)%nat.

(** The query of the listing: a text search when [q] is given and not
    blank. *)
Definition searchFilter (q : option string) : Filter.t :=
  if truthy q && negb (trim (default "" q) =? "")%string
  then Filter.set_text (trim (default "" q)) Filter.empty
  else Filter.empty.

Definition listBooks (q : option string) (page limit : option positive)
    : Store -> BooksView * Store :=
  fun s =>
    let page := Pos.to_nat (default 1%positive page) in
    let limit := Pos.to_nat (default 20%positive limit) in
    let query := searchFilter q in
    let skip := ((page - 1) * limit)%nat in
    let found := sortNewestFirst (filter (matches query) s) in
    let books := firstn limit (skipn skip found) in
    let totalBooks := List.length (filter (matches query) s) in
    let totalPages := ceilDiv totalBooks limit in
    (mkBooksView books (default "" q) page totalPages totalBooks, s).

(** *** The catalogue page (client/oop.js)

    The [Book] class of the page, without its random [id] and its
    [dateAdded], which no method below reads. *)
Record ClientBook := mkClientBook {
  c_title : string;
  c_author : string;
  c_genre : string;
  c_status : string;
  c_id : ObjectId;
  c_description : option string;
  c_coverUrl : string;
  c_isbn : option string
}.

(** [a || b] on strings. *)
Definition orElse (a b : string) : string :=
  if (a =? "")%string then b else a.

(** The callback of [apiBooks.map] in [loadBooksFromAPI]. *)
Definition toClientBook (bookData : Book) : ClientBook :=
  {| c_title := title bookData;
     c_author := author bookData;
     c_genre := orElse (genre bookData) (category bookData);
     c_status := orElse (status bookData)
                   (if available bookData then "Available" else "Borrowed");
     c_id := _id bookData;
     c_description := description bookData;
     c_coverUrl := coverUrl bookData;
     c_isbn := isbn bookData |}.

Definition getStatusClass (this : ClientBook) : string :=
  if (c_status this =? "Available")%string then "available" else "checked-out".

Definition isAvailable (this : ClientBook) : bool :=
  (c_status this =? "Available")%string.

(** [loadBooksFromAPI]: the books of GET /api/books, or none when the
    reply carries no list. *)
Definition loadBooksFromAPI (s : Store) : list ClientBook :=
  match data (fst (getAllBooks (Query.mk None None None None None) s)) with
  | Docs apiBooks => map toClientBook apiBooks
  | _ => []
  end.

Definition getBooksByStatus (st : string) (these : list ClientBook)
    : list ClientBook :=
  filter (fun book => (c_status book =? st)%string) these.

Definition getTotalBooks (these : list ClientBook) : nat := List.length these.

Definition getAvailableCount (these : list ClientBook) : nat :=
  List.length (filter isAvailable these).

Definition notAnId : string := "not-an-id".

Definition tooGood : Body.t :=
  Body.mk (Some "1984") (Some "George Orwell") None None None None None None
    None (Some 6) None None None None None None None None None None None.

Definition retitled : Body.t :=
  Body.mk (Some "  Nineteen Eighty-Four ") None None None None None None None
    None None None None None None None None None None None None None.



(** Gatsby, then Orwell, then Lee, created at times 0, 10 and 20. *)
Definition threeBooks : Store :=
  snd (createBook 20 mockingbird
    (snd (createBook 10 orwell (snd (createBook 0 gatsby []))))).

(** The paths no lending transition writes. *)
Definition sameCatalogue (b b' : Book) : Prop :=
  _id b' = _id b /\ title b' = title b /\ author b' = author b
  /\ description b' = description b /\ genre b' = genre b
  /\ category b' = category b /\ isbn b' = isbn b
  /\ coverUrl b' = coverUrl b /\ coverImage b' = coverImage b
  /\ publishedYear b' = publishedYear b /\ rating b' = rating b
  /\ totalReviews b' = totalReviews b /\ maxRenewals b' = maxRenewals b
  /\ tags b' = tags b /\ isNewRelease b' = isNewRelease b
  /\ createdAt b' = createdAt b.

(** The identifier a lending request addresses. *)
Definition lendingTarget (r : Request) : option string :=
  match r with
  | Borrow _ id _ => Some id
  | Return _ id => Some id
  | Renew _ id _ => Some id
  | _ => None
  end.

(** The list an awaited query resolves to. *)
Definition resolved (m : Async (list Book)) (s : Store) : list Book :=
  match fst (m s) with
  | Resolved l => l
  | Rejected _ => []
  end.

(** A query parameter given as the empty string, taken away. *)
Definition dropEmpty (o : option string) : option string :=
  match o with
  | Some v => if (v =? "")%string then None else Some v
  | None => None
  end.

(** What a path holds after an update: the value the update names for
    it, or else the value it held. *)
Definition orKeep {A} (old : A) (named : option A) : A :=
  match named with
  | Some v => v
  | None => old
  end.



(** The three books with Orwell lent at time 100, and the single shelf
    with a loan that a Renew at time 5000000000 finds overdue. *)
Definition lentThree : Store := snd (borrowBook 100 secondId reader threeBooks).

Definition yes : Query.t := Query.mk None None None (Some "yes") None.

Definition blankTitle : Body.t :=
  Body.mk (Some "   ") (Some "George Orwell") None None None None None None
    None None None None None None None None None None None None None.






(** * Properties *)

(** ** The collection *)

Lemma lookup_id (oid : ObjectId) (s : Store) (b : Book) :
  lookup oid s = Some b -> _id b = oid.
Proof.
  unfold lookup. intros H. apply find_some in H.
  destruct H as [_ H]. now apply N.eqb_eq in H.
Qed.

Lemma lookup_In (oid : ObjectId) (s : Store) (b : Book) :
  lookup oid s = Some b -> In b s.
Proof.
  unfold lookup. intros H. now apply find_some in H.
Qed.

Lemma lookup_replaceDoc (oid : ObjectId) (s : Store) (b b' : Book) :
  lookup oid s = Some b -> _id b' = oid ->
  lookup oid (replaceDoc b' s) = Some b'.
Proof.
  unfold lookup, replaceDoc. intros H Hid. subst oid.
  induction s as [|d s IH]; simpl in *; [discriminate|].
  destruct (N.eqb_spec (_id d) (_id b')) as [E|E].
  - simpl. now rewrite N.eqb_refl.
  - simpl. destruct (N.eqb_spec (_id d) (_id b')); [contradiction|].
    now apply IH.
Qed.

Lemma replaceDoc_length (b : Book) (s : Store) :
  List.length (replaceDoc b s) = List.length s.
Proof. unfold replaceDoc. apply length_map. Qed.

Lemma In_replaceDoc (b d : Book) (s : Store) :
  In d (replaceDoc b s) -> d = b \/ In d s.
Proof.
  unfold replaceDoc. intros H. apply in_map_iff in H.
  destruct H as [x [Hx Hin]].
  destruct (_id x =? _id b)%N; subst; auto.
Qed.

(** ** What each lending handler does, case by case *)

Ltac run_handler :=
  cbv beta delta [borrowBook returnBook renewBook tryCatch bind ret throw
                  Book_findById Book_borrowBook Book_returnBook
                  Book_renewBook save].

Lemma renewBook_malformed now id body s :
  castObjectId id = None ->
  renewBook now id body s = (fail 400 (MessageOf (CastError "_id" id)), s).
Proof. intros H. run_handler. now rewrite H. Qed.

Lemma renewBook_absent now id body s oid :
  castObjectId id = Some oid -> lookup oid s = None ->
  renewBook now id body s = (NotFound, s).
Proof. intros H1 H2. run_handler. now rewrite H1, H2. Qed.

Lemma renewBook_found now id body s oid b :
  castObjectId id = Some oid -> lookup oid s = Some b ->
  renewBook now id body s =
    if (maxRenewals b <=? renewalCount b)%N then (RenewalLimitExceeded, s)
    else
      match dueDate b with
      | None => (NotBorrowed, s)
      | Some due =>
          let newDue := plusDays due (default 2 (RenewBody.weeks body) * 7) in
          if validTime newDue then
            let b' :=
              set_updatedAt now
                (set_renewalCount (renewalCount b + 1)%N
                   (set_dueDate (Some newDue) b)) in
            (ok 200 (Doc b') (Some "Book renewed successfully"), replaceDoc b' s)
          else
            (fail 400 (MessageOf (ValidationError [DateViolation "dueDate"])), s)
      end.
Proof.
  intros H1 H2. run_handler. rewrite H1, H2. cbv beta iota zeta.
  destruct (maxRenewals b <=? renewalCount b)%N; [reflexivity|].
  destruct (dueDate b) as [due|]; [|reflexivity].
  unfold addDays.
  destruct (validTime (plusDays due (default 2 (RenewBody.weeks body) * 7)));
    reflexivity.
Qed.

Lemma returnBook_malformed now id s :
  castObjectId id = None ->
  returnBook now id s = (fail 500 (MessageOf (CastError "_id" id)), s).
Proof. intros H. run_handler. now rewrite H. Qed.

Lemma returnBook_absent now id s oid :
  castObjectId id = Some oid -> lookup oid s = None ->
  returnBook now id s = (NotFound, s).
Proof. intros H1 H2. run_handler. now rewrite H1, H2. Qed.

Lemma returnBook_found now id s oid b :
  castObjectId id = Some oid -> lookup oid s = Some b ->
  returnBook now id s =
    if available b then (NotCurrentlyBorrowed, s)
    else
      let b' :=
        set_updatedAt now
          (set_renewalCount 0%N
             (set_dueDate None
                (set_borrowDate None
                   (set_borrowedAt None
                      (set_borrowedBy noBorrower
                         (set_status "Available" (set_available true b))))))) in
      (ok 200 (Doc b') (Some "Book returned successfully"), replaceDoc b' s).
Proof.
  intros H1 H2. run_handler. rewrite H1, H2. cbv beta iota zeta.
  destruct (available b); reflexivity.
Qed.

Definition borrowerMissing (body : BorrowBody.t) : bool :=
  falsy (BorrowBody.userId body) || falsy (BorrowBody.userName body)
  || falsy (BorrowBody.userEmail body).

Lemma borrowBook_invalid now id body s :
  borrowerMissing body = true ->
  borrowBook now id body s = (InvalidInput, s).
Proof. unfold borrowerMissing. intros H. run_handler. now rewrite H. Qed.

Lemma borrowBook_malformed now id body s :
  borrowerMissing body = false -> castObjectId id = None ->
  borrowBook now id body s = (fail 500 (MessageOf (CastError "_id" id)), s).
Proof.
  unfold borrowerMissing. intros H0 H. run_handler. now rewrite H0, H.
Qed.

Lemma borrowBook_absent now id body s oid :
  borrowerMissing body = false ->
  castObjectId id = Some oid -> lookup oid s = None ->
  borrowBook now id body s = (NotFound, s).
Proof.
  unfold borrowerMissing. intros H0 H1 H2. run_handler.
  now rewrite H0, H1, H2.
Qed.

Lemma borrowBook_found now id body s oid b :
  borrowerMissing body = false ->
  castObjectId id = Some oid -> lookup oid s = Some b ->
  borrowBook now id body s =
    if negb (available b) then (NotAvailable, s)
    else
      let due := plusDays now (default 3 (BorrowBody.weeks body) * 7) in
      match castObjectId (default "" (BorrowBody.userId body)) with
      | Some uid =>
          if validTime due then
            let b' :=
              set_updatedAt now
                (set_dueDate (Some due)
                   (set_borrowDate (Some now)
                      (set_borrowedAt (Some now)
                         (set_borrowedBy
                            (mkBorrower (Some uid)
                               (Some (default "" (BorrowBody.userName body)))
                               (Some (default "" (BorrowBody.userEmail body))))
                            (set_status "Borrowed" (set_available false b)))))) in
            (ok 200 (Doc b') (Some "Book borrowed successfully"), replaceDoc b' s)
          else
            (fail 500 (MessageOf (ValidationError [DateViolation "dueDate"])), s)
      | None =>
          (fail 500
             (MessageOf
                (ValidationError
                   (assignmentFailures (default "" (BorrowBody.userId body)) None
                      (addDays now (default 3 (BorrowBody.weeks body) * 7))))), s)
      end.
Proof.
  unfold borrowerMissing. intros H0 H1 H2. run_handler.
  rewrite H0, H1, H2. cbv beta iota zeta.
  destruct (available b); simpl negb; cbv iota; [|reflexivity].
  unfold addDays.
  destruct (castObjectId (default "" (BorrowBody.userId body)));
    destruct (validTime (plusDays now (default 3 (BorrowBody.weeks body) * 7)));
    reflexivity.
Qed.

Lemma falsy_false (o : option string) :
  falsy o = false -> exists v, o = Some v /\ v <> "".
Proof.
  destruct o as [v|]; simpl; [|discriminate].
  intros H. exists v. split; [reflexivity|].
  now apply String.eqb_neq.
Qed.



(** A lending handler that does not answer a success writes nothing. *)
Lemma borrowBook_failure now id body s :
  success (fst (borrowBook now id body s)) = false ->
  snd (borrowBook now id body s) = s.
Proof.
  destruct (borrowerMissing body) eqn:H0.
  { now rewrite (borrowBook_invalid now id body s H0). }
  destruct (castObjectId id) as [oid|] eqn:Hc.
  2:{ now rewrite (borrowBook_malformed now id body s H0 Hc). }
  destruct (lookup oid s) as [b|] eqn:Hl.
  2:{ now rewrite (borrowBook_absent now id body s oid H0 Hc Hl). }
  rewrite (borrowBook_found now id body s oid b H0 Hc Hl).
  destruct (available b); simpl negb; cbv iota zeta; [|reflexivity].
  destruct (castObjectId (default "" (BorrowBody.userId body)));
    [|reflexivity].
  destruct (validTime (plusDays now (default 3 (BorrowBody.weeks body) * 7)));
    [discriminate|reflexivity].
Qed.

Lemma returnBook_failure now id s :
  success (fst (returnBook now id s)) = false ->
  snd (returnBook now id s) = s.
Proof.
  destruct (castObjectId id) as [oid|] eqn:Hc.
  2:{ now rewrite (returnBook_malformed now id s Hc). }
  destruct (lookup oid s) as [b|] eqn:Hl.
  2:{ now rewrite (returnBook_absent now id s oid Hc Hl). }
  rewrite (returnBook_found now id s oid b Hc Hl).
  destruct (available b); [reflexivity|discriminate].
Qed.

Lemma renewBook_failure now id body s :
  success (fst (renewBook now id body s)) = false ->
  snd (renewBook now id body s) = s.
Proof.
  destruct (castObjectId id) as [oid|] eqn:Hc.
  2:{ now rewrite (renewBook_malformed now id body s Hc). }
  destruct (lookup oid s) as [b|] eqn:Hl.
  2:{ now rewrite (renewBook_absent now id body s oid Hc Hl). }
  rewrite (renewBook_found now id body s oid b Hc Hl).
  destruct (maxRenewals b <=? renewalCount b)%N; [reflexivity|].
  destruct (dueDate b) as [due|]; [|reflexivity]. cbv zeta.
  destruct (validTime (plusDays due (default 2 (RenewBody.weeks body) * 7)));
    [discriminate|reflexivity].
Qed.

(** ** Renew *)


(** C10.  Renew tests the cap before it tests whether the record is
    borrowed: a record with [dueDate] absent whose [renewalCount] has
    reached [maxRenewals] gets RenewalLimitExceeded, which is not the
    NotBorrowed reply; and whenever the reply is NotBorrowed the
    identifier resolved to a record with [dueDate] absent and
    [renewalCount] below [maxRenewals]. *)
Theorem renew_checks_cap_first now id body s :
  (forall oid b,
      castObjectId id = Some oid -> lookup oid s = Some b ->
      dueDate b = None -> (maxRenewals b <= renewalCount b)%N ->
      renewBook now id body s = (RenewalLimitExceeded, s)
      /\ RenewalLimitExceeded <> NotBorrowed)
  /\ (fst (renewBook now id body s) = NotBorrowed ->
      exists oid b,
        castObjectId id = Some oid /\ lookup oid s = Some b
        /\ dueDate b = None /\ (renewalCount b < maxRenewals b)%N).
Proof.
  split.
  - intros oid b Hc Hl _ Hcap. split; [|discriminate].
    rewrite (renewBook_found now id body s oid b Hc Hl).
    apply N.leb_le in Hcap. now rewrite Hcap.
  - destruct (castObjectId id) as [oid|] eqn:Hc.
    + destruct (lookup oid s) as [b|] eqn:Hl.
      * rewrite (renewBook_found now id body s oid b Hc Hl).
        destruct (N.leb_spec (maxRenewals b) (renewalCount b)) as [Hcap|Hlt];
          [discriminate|].
        destruct (dueDate b) as [due|] eqn:Hd.
        { cbv zeta.
          destruct (validTime (plusDays due (default 2 (RenewBody.weeks body) * 7)));
            discriminate. }
        intros _. now exists oid, b.
      * rewrite (renewBook_absent now id body s oid Hc Hl). discriminate.
    + rewrite (renewBook_malformed now id body s Hc). discriminate.
Qed.

(** ** Borrow *)


(** X24.  Borrow answers InvalidInput when one of the three borrower
    fields is missing; otherwise NotFound when the identifier is
    well-formed and resolves to no record, and NotAvailable when it
    resolves to a record with [available = false].  Each of these leaves
    the collection as it was, and so does every reply of Borrow that is
    not a success. *)
Theorem borrow_failures_change_nothing now id body s :
  (forall oid b,
      borrowerMissing body = false ->
      castObjectId id = Some oid -> lookup oid s = Some b ->
      available b = false ->
      borrowBook now id body s = (NotAvailable, s))
  /\ (forall oid,
        borrowerMissing body = false ->
        castObjectId id = Some oid -> lookup oid s = None ->
        borrowBook now id body s = (NotFound, s))
  /\ (borrowerMissing body = true ->
      borrowBook now id body s = (InvalidInput, s))
  /\ (success (fst (borrowBook now id body s)) = false ->
      snd (borrowBook now id body s) = s).
Proof.
  repeat split.
  - intros oid b H0 Hc Hl Hav.
    rewrite (borrowBook_found now id body s oid b H0 Hc Hl). now rewrite Hav.
  - intros oid H0 Hc Hl. now apply borrowBook_absent with oid.
  - apply borrowBook_invalid.
  - apply borrowBook_failure.
Qed.

(** ** Successful transitions, read back from the reply *)

Lemma borrowBook_success now id body s :
  success (fst (borrowBook now id body s)) = true ->
  exists oid b uid,
    castObjectId id = Some oid /\ lookup oid s = Some b
    /\ available b = true
    /\ let b' :=
         set_updatedAt now
           (set_dueDate
              (Some (plusDays now (default 3 (BorrowBody.weeks body) * 7)))
              (set_borrowDate (Some now)
                 (set_borrowedAt (Some now)
                    (set_borrowedBy
                       (mkBorrower (Some uid)
                          (Some (default "" (BorrowBody.userName body)))
                          (Some (default "" (BorrowBody.userEmail body))))
                       (set_status "Borrowed" (set_available false b)))))) in
       borrowBook now id body s
         = (ok 200 (Doc b') (Some "Book borrowed successfully"), replaceDoc b' s).
Proof.
  destruct (borrowerMissing body) eqn:H0.
  { rewrite (borrowBook_invalid now id body s H0). discriminate. }
  destruct (castObjectId id) as [oid|] eqn:Hc.
  2:{ rewrite (borrowBook_malformed now id body s H0 Hc). discriminate. }
  destruct (lookup oid s) as [b|] eqn:Hl.
  2:{ rewrite (borrowBook_absent now id body s oid H0 Hc Hl). discriminate. }
  rewrite (borrowBook_found now id body s oid b H0 Hc Hl).
  destruct (available b) eqn:Hav; simpl negb; cbv iota zeta; [|discriminate].
  destruct (castObjectId (default "" (BorrowBody.userId body))) as [uid|];
    [|discriminate].
  destruct (validTime (plusDays now (default 3 (BorrowBody.weeks body) * 7)));
    [|discriminate].
  intros _. exists oid, b, uid. repeat split; trivial.
Qed.

Lemma returnBook_success now id s :
  success (fst (returnBook now id s)) = true ->
  exists oid b,
    castObjectId id = Some oid /\ lookup oid s = Some b
    /\ available b = false
    /\ let b' :=
         set_updatedAt now
           (set_renewalCount 0%N
              (set_dueDate None
                 (set_borrowDate None
                    (set_borrowedAt None
                       (set_borrowedBy noBorrower
                          (set_status "Available" (set_available true b))))))) in
       returnBook now id s
         = (ok 200 (Doc b') (Some "Book returned successfully"), replaceDoc b' s).
Proof.
  destruct (castObjectId id) as [oid|] eqn:Hc.
  2:{ rewrite (returnBook_malformed now id s Hc). discriminate. }
  destruct (lookup oid s) as [b|] eqn:Hl.
  2:{ rewrite (returnBook_absent now id s oid Hc Hl). discriminate. }
  rewrite (returnBook_found now id s oid b Hc Hl).
  destruct (available b) eqn:Hav; [discriminate|].
  intros _. exists oid, b. repeat split; trivial.
Qed.

Lemma renewBook_success now id body s :
  success (fst (renewBook now id body s)) = true ->
  exists oid b due,
    castObjectId id = Some oid /\ lookup oid s = Some b
    /\ dueDate b = Some due /\ (renewalCount b < maxRenewals b)%N
    /\ let b' :=
         set_updatedAt now
           (set_renewalCount (renewalCount b + 1)%N
              (set_dueDate
                 (Some (plusDays due (default 2 (RenewBody.weeks body) * 7))) b)) in
       renewBook now id body s
         = (ok 200 (Doc b') (Some "Book renewed successfully"), replaceDoc b' s).
Proof.
  destruct (castObjectId id) as [oid|] eqn:Hc.
  2:{ rewrite (renewBook_malformed now id body s Hc). discriminate. }
  destruct (lookup oid s) as [b|] eqn:Hl.
  2:{ rewrite (renewBook_absent now id body s oid Hc Hl). discriminate. }
  rewrite (renewBook_found now id body s oid b Hc Hl).
  destruct (N.leb_spec (maxRenewals b) (renewalCount b)) as [Hcap|Hlt];
    [discriminate|].
  destruct (dueDate b) as [due|] eqn:Hd; [|discriminate]. cbv zeta.
  destruct (validTime (plusDays due (default 2 (RenewBody.weeks body) * 7)));
    [|discriminate].
  intros _. exists oid, b, due. repeat split; trivial.
Qed.

(** ** Create *)

Lemma isbn_newDocument oid now body :
  isbn (newDocument oid now body) = option_map trim (Body.isbn body).
Proof. reflexivity. Qed.

Lemma createBook_accepts now body s :
  acceptable body ->
  isbnTaken (option_map trim (Body.isbn body)) s = false ->
  let doc := newDocument (newObjectId s) now body in
  createBook now body s = (ok 201 (Doc doc) None, s ++ [doc]).
Proof.
  intros [Ht [Ha Hv]] Hi. unfold createBook, tryCatch, bind, ret, Book_create.
  rewrite Ht, Ha, Hv. cbn [orb]. cbv iota beta zeta.
  rewrite isbn_newDocument. now rewrite Hi.
Qed.

Lemma createBook_duplicate now body s :
  acceptable body ->
  isbnTaken (option_map trim (Body.isbn body)) s = true ->
  createBook now body s = (DuplicateISBN, s).
Proof.
  intros [Ht [Ha Hv]] Hi. unfold createBook, tryCatch, bind, ret, Book_create.
  rewrite Ht, Ha, Hv. cbn [orb]. cbv iota beta zeta.
  rewrite isbn_newDocument. now rewrite Hi.
Qed.

Lemma createBook_success now body s :
  success (fst (createBook now body s)) = true ->
  acceptable body
  /\ isbnTaken (option_map trim (Body.isbn body)) s = false
  /\ let doc := newDocument (newObjectId s) now body in
     createBook now body s = (ok 201 (Doc doc) None, s ++ [doc]).
Proof.
  unfold acceptable, createBook, tryCatch, bind, ret, Book_create.
  destruct (falsy (Body.title body)); [discriminate|].
  destruct (falsy (Body.author body)); [discriminate|].
  cbn [orb]. cbv iota beta zeta.
  destruct (violations true body); [|discriminate].
  rewrite isbn_newDocument.
  destruct (isbnTaken (option_map trim (Body.isbn body)) s); [discriminate|].
  intros _. repeat split; trivial.
Qed.

Lemma createBook_failure now body s :
  success (fst (createBook now body s)) = false ->
  snd (createBook now body s) = s.
Proof.
  unfold createBook, tryCatch, bind, ret, Book_create.
  destruct (falsy (Body.title body) || falsy (Body.author body));
    [reflexivity|].
  destruct (violations true body); [|reflexivity].
  cbv iota beta zeta.
  destruct (isbnTaken _ s); [reflexivity|discriminate].
Qed.

(** ** The three encodings of the lending state *)

Lemma borrowed_agrees b by_ at_ due bd now :
  encodingsAgree
    (set_updatedAt now
       (set_dueDate (Some due)
          (set_borrowDate bd
             (set_borrowedAt (Some at_)
                (set_borrowedBy by_
                   (set_status "Borrowed" (set_available false b))))))).
Proof.
  unfold encodingsAgree, lendingAbsent. simpl.
  split; split; intros H; try discriminate H.
  destruct H as [_ [H _]]. discriminate H.
Qed.

Lemma returned_agrees b now :
  encodingsAgree
    (set_updatedAt now
       (set_renewalCount 0%N
          (set_dueDate None
             (set_borrowDate None
                (set_borrowedAt None
                   (set_borrowedBy noBorrower
                      (set_status "Available" (set_available true b)))))))).
Proof.
  unfold encodingsAgree, lendingAbsent. simpl.
  split; split; intros _; repeat split.
Qed.

Lemma renewed_agrees b due due' rc now :
  dueDate b = Some due -> encodingsAgree b ->
  encodingsAgree
    (set_updatedAt now (set_renewalCount rc (set_dueDate (Some due') b))).
Proof.
  unfold encodingsAgree, lendingAbsent. simpl.
  intros Hd [[A1 A2] [B1 B2]]. split; split; auto.
  - intros H. apply B1 in H. destruct H as [_ [_ H]]. congruence.
  - intros [_ [_ H]]. discriminate H.
Qed.

Lemma created_agrees oid now body :
  namesNoLendingPath body -> encodingsAgree (newDocument oid now body).
Proof.
  intros [H1 [H2 [H3 [H4 H5]]]].
  unfold encodingsAgree, lendingAbsent, newDocument. simpl.
  rewrite H1, H2, H3, H4, H5. simpl.
  split; split; intros _; repeat split.
Qed.

(** C1, as the code has it.  The record a successful Borrow or Return
    stores has its three encodings in agreement ([available = true] iff
    [status = 'Available'] iff [borrowedBy], [borrowedAt] and [dueDate]
    are all absent); a successful Renew stores a record whose encodings
    agree when those of the record it renewed did; and the record a
    successful Create stores has them in agreement when the request names
    none of [available], [status], [borrowedBy], [borrowedAt],
    [dueDate]. *)
Theorem encodings_agree_after_transitions :
  (forall now id body s,
      success (fst (borrowBook now id body s)) = true ->
      exists oid b',
        castObjectId id = Some oid
        /\ fst (borrowBook now id body s)
             = ok 200 (Doc b') (Some "Book borrowed successfully")
        /\ lookup oid (snd (borrowBook now id body s)) = Some b'
        /\ encodingsAgree b')
  /\ (forall now id s,
        success (fst (returnBook now id s)) = true ->
        exists oid b',
          castObjectId id = Some oid
          /\ fst (returnBook now id s)
               = ok 200 (Doc b') (Some "Book returned successfully")
          /\ lookup oid (snd (returnBook now id s)) = Some b'
          /\ encodingsAgree b')
  /\ (forall now id body s,
        success (fst (renewBook now id body s)) = true ->
        exists oid b b',
          castObjectId id = Some oid /\ lookup oid s = Some b
          /\ fst (renewBook now id body s)
               = ok 200 (Doc b') (Some "Book renewed successfully")
          /\ lookup oid (snd (renewBook now id body s)) = Some b'
          /\ (encodingsAgree b -> encodingsAgree b'))
  /\ (forall now body s,
        success (fst (createBook now body s)) = true ->
        exists b,
          createBook now body s = (ok 201 (Doc b) None, s ++ [b])
          /\ (namesNoLendingPath body -> encodingsAgree b)).
Proof.
  split; [|split; [|split]].
  - intros now id body s H.
    destruct (borrowBook_success now id body s H)
      as [oid [b [uid [Hc [Hl [_ E]]]]]].
    cbv zeta in E. rewrite E. simpl fst. simpl snd.
    eexists oid, _. split; [exact Hc|]. split; [reflexivity|]. split.
    + apply (lookup_replaceDoc oid s b); [exact Hl|apply (lookup_id _ _ _ Hl)].
    + apply borrowed_agrees.
  - intros now id s H.
    destruct (returnBook_success now id s H) as [oid [b [Hc [Hl [_ E]]]]].
    cbv zeta in E. rewrite E. simpl fst. simpl snd.
    eexists oid, _. split; [exact Hc|]. split; [reflexivity|]. split.
    + apply (lookup_replaceDoc oid s b); [exact Hl|apply (lookup_id _ _ _ Hl)].
    + apply returned_agrees.
  - intros now id body s H.
    destruct (renewBook_success now id body s H)
      as [oid [b [due [Hc [Hl [Hd [_ E]]]]]]].
    cbv zeta in E. rewrite E. simpl fst. simpl snd.
    eexists oid, b, _. split; [exact Hc|]. split; [exact Hl|].
    split; [reflexivity|]. split.
    + apply (lookup_replaceDoc oid s b); [exact Hl|apply (lookup_id _ _ _ Hl)].
    + now apply renewed_agrees with due.
  - intros now body s H.
    destruct (createBook_success now body s H) as [_ [_ E]].
    cbv zeta in E. eexists. split; [exact E|].
    apply created_agrees.
Qed.

(** ** Return, and Borrow followed by Return *)

(** C4, as the code has it.  Return of a borrowed book answers 200 and
    stores a record with [available = true], [status = 'Available'],
    [borrowedBy], [borrowedAt], [borrowDate] and [dueDate] absent and
    [renewalCount = 0].  For an available book whose [status] is
    'Available' and whose four loan fields are absent, a Borrow that
    succeeds followed by Return stores the record it started from in
    every field except [renewalCount], which is 0, and [updatedAt], which
    is the time of the Return. *)
Theorem return_restores :
  (forall now id s oid b,
      castObjectId id = Some oid -> lookup oid s = Some b ->
      available b = false ->
      exists b',
        returnBook now id s
          = (ok 200 (Doc b') (Some "Book returned successfully"), replaceDoc b' s)
        /\ lookup oid (replaceDoc b' s) = Some b'
        /\ available b' = true /\ status b' = "Available"
        /\ borrowedBy b' = noBorrower /\ borrowedAt b' = None
        /\ borrowDate b' = None /\ dueDate b' = None
        /\ renewalCount b' = 0%N)
  /\ (forall now1 now2 id body s oid b,
        castObjectId id = Some oid -> lookup oid s = Some b ->
        available b = true -> status b = "Available" ->
        lendingAbsent b -> borrowDate b = None ->
        success (fst (borrowBook now1 id body s)) = true ->
        let s1 := snd (borrowBook now1 id body s) in
        let b2 := set_updatedAt now2 (set_renewalCount 0%N b) in
        returnBook now2 id s1
          = (ok 200 (Doc b2) (Some "Book returned successfully"), replaceDoc b2 s1)
        /\ lookup oid (replaceDoc b2 s1) = Some b2).
Proof.
  split.
  - intros now id s oid b Hc Hl Hav.
    rewrite (returnBook_found now id s oid b Hc Hl), Hav.
    eexists. split; [reflexivity|].
    split; [apply (lookup_replaceDoc oid s b); [exact Hl|apply (lookup_id _ _ _ Hl)]|].
    repeat split.
  - intros now1 now2 id body s oid b
      Hc Hl Hav Hst [Hby [Hat Hdue]] Hbd Hok s1 b2.
    destruct (borrowBook_success now1 id body s Hok)
      as [oid' [b0 [uid [Hc' [Hl' [_ E]]]]]].
    rewrite Hc in Hc'. injection Hc' as <-.
    rewrite Hl in Hl'. injection Hl' as <-. cbv zeta in E.
    assert (exists b1, s1 = replaceDoc b1 s /\ _id b1 = oid
                       /\ available b1 = false
                       /\ set_updatedAt now2
                            (set_renewalCount 0%N
                               (set_dueDate None
                                  (set_borrowDate None
                                     (set_borrowedAt None
                                        (set_borrowedBy noBorrower
                                           (set_status "Available"
                                              (set_available true b1)))))))
                          = b2) as [b1 [Hs1 [Hid [Hav1 Hb2]]]].
    { subst s1. rewrite E. simpl snd.
      eexists. split; [reflexivity|].
      split; [apply (lookup_id _ _ _ Hl)|].
      split; [reflexivity|].
      subst b2. destruct b. simpl in *. subst. reflexivity. }
    assert (lookup oid s1 = Some b1) as Hl1.
    { rewrite Hs1. now apply (lookup_replaceDoc oid s b). }
    rewrite (returnBook_found now2 id s1 oid b1 Hc Hl1), Hav1.
    cbv zeta. rewrite Hb2. split; [reflexivity|].
    apply (lookup_replaceDoc oid s1 b1); [exact Hl1|].
    subst b2. simpl. apply (lookup_id _ _ _ Hl).
Qed.

(** ** Create: defaults and the unique index on ISBN *)

(** C6, as the code has it.  A book produced by Create starts with
    [available = true], [status = 'Available'] and [renewalCount = 0]
    for each of the three that the request does not name; a path the
    request names starts with the value the request gives. *)
Theorem create_starts_from_defaults now body s :
  success (fst (createBook now body s)) = true ->
  exists b,
    createBook now body s = (ok 201 (Doc b) None, s ++ [b])
    /\ (Body.available body = None -> available b = true)
    /\ (Body.status body = None -> status b = "Available")
    /\ (Body.renewalCount body = None -> renewalCount b = 0%N)
    /\ (forall v, Body.available body = Some v -> available b = v)
    /\ (forall v, Body.status body = Some v -> status b = v)
    /\ (forall v, Body.renewalCount body = Some v -> renewalCount b = Z.to_N v).
Proof.
  intros H. destruct (createBook_success now body s H) as [_ [_ E]].
  cbv zeta in E. eexists. split; [exact E|].
  unfold newDocument. simpl.
  repeat split; intros; match goal with E' : _ = _ |- _ => now rewrite E' end.
Qed.

Lemma isbnTaken_In (v : string) (d : Book) (s : Store) :
  In d s -> isbn d = Some v -> isbnTaken (Some v) s = true.
Proof.
  intros Hin Hd. unfold isbnTaken. apply existsb_exists.
  exists d. split; [exact Hin|]. rewrite Hd. simpl. apply String.eqb_refl.
Qed.

(** C9.  When the collection holds a book with a non-empty ISBN, a
    Create whose ISBN is that one answers DuplicateISBN and adds no
    record, and so does the second of two Creates that give the same
    non-empty ISBN; two Creates that both omit the ISBN both succeed and
    the collection gains both books.  (The requests are ones the handler
    and the validators accept.) *)
Theorem isbn_is_unique_when_present :
  (forall now body s d i,
      In d s -> isbn d = Some (trim i) -> i <> "" ->
      Body.isbn body = Some i -> acceptable body ->
      createBook now body s = (DuplicateISBN, s))
  /\ (forall now1 now2 body1 body2 s i,
        i <> "" -> Body.isbn body1 = Some i -> Body.isbn body2 = Some i ->
        success (fst (createBook now1 body1 s)) = true ->
        acceptable body2 ->
        createBook now2 body2 (snd (createBook now1 body1 s))
          = (DuplicateISBN, snd (createBook now1 body1 s)))
  /\ (forall now1 now2 body1 body2 s,
        Body.isbn body1 = None -> Body.isbn body2 = None ->
        acceptable body1 -> acceptable body2 ->
        exists b1 b2,
          createBook now1 body1 s = (ok 201 (Doc b1) None, s ++ [b1])
          /\ createBook now2 body2 (s ++ [b1])
               = (ok 201 (Doc b2) None, (s ++ [b1]) ++ [b2])
          /\ isbn b1 = None /\ isbn b2 = None).
Proof.
  split; [|split].
  - intros now body s d i Hin Hd _ Hi Hacc.
    apply createBook_duplicate; [exact Hacc|].
    rewrite Hi. simpl. now apply isbnTaken_In with d.
  - intros now1 now2 body1 body2 s i _ Hi1 Hi2 Hok Hacc.
    destruct (createBook_success now1 body1 s Hok) as [_ [_ E]].
    cbv zeta in E. rewrite E. simpl snd.
    apply createBook_duplicate; [exact Hacc|].
    rewrite Hi2. simpl.
    apply isbnTaken_In with (newDocument (newObjectId s) now1 body1).
    + apply in_or_app. right. now left.
    + rewrite isbn_newDocument, Hi1. reflexivity.
  - intros now1 now2 body1 body2 s Hi1 Hi2 Hacc1 Hacc2.
    eexists _, _. split; [|split; [|split]].
    + apply createBook_accepts; [exact Hacc1|]. now rewrite Hi1.
    + apply createBook_accepts; [exact Hacc2|]. now rewrite Hi2.
    + rewrite isbn_newDocument, Hi1. reflexivity.
    + rewrite isbn_newDocument, Hi2. reflexivity.
Qed.

(** ** The renewal cap over reachable collections *)

Lemma updateBook_store now id body s :
  snd (updateBook now id body s) = s
  \/ exists oid b,
       lookup oid s = Some b
       /\ snd (updateBook now id body s) = replaceDoc (applyUpdate now body b) s.
Proof.
  unfold updateBook, tryCatch, bind, ret, Book_findByIdAndUpdate.
  destruct (castObjectId id) as [oid|]; [|now left].
  destruct (updateCast body); [now left|].
  destruct (violations false body); [|now left].
  destruct (lookup oid s) as [b|] eqn:Hl; [|now left].
  cbv zeta.
  destruct (isSome (Body.isbn body) && _); [now left|].
  right. exists oid, b. split; [exact Hl|reflexivity].
Qed.

Definition capRespected (b : Book) : Prop :=
  (renewalCount b <= maxRenewals b)%N.

Lemma capRespected_replaceDoc b' s :
  capRespected b' ->
  (forall d, In d s -> capRespected d) ->
  forall d, In d (replaceDoc b' s) -> capRespected d.
Proof.
  intros Hb Hs d Hd. destruct (In_replaceDoc _ _ _ Hd) as [->|Hin]; auto.
Qed.

Lemma handle_keeps_cap r s :
  leavesCounters r ->
  (forall d, In d s -> capRespected d) ->
  forall d, In d (snd (handle r s)) -> capRespected d.
Proof.
  intros Hr Hs. destruct r as [now body|now id body|now id body|now id|now id body];
    simpl handle; simpl in Hr.
  - destruct (success (fst (createBook now body s))) eqn:E.
    + destruct (createBook_success now body s E) as [_ [_ E']].
      cbv zeta in E'. rewrite E'. simpl snd.
      intros d Hd. apply in_app_or in Hd. destruct Hd as [Hd|[<-|[]]]; auto.
      destruct Hr as [Hrc Hmax].
      unfold capRespected, newDocument. simpl. rewrite Hrc, Hmax. simpl. lia.
    + now rewrite (createBook_failure now body s E).
  - destruct Hr as [Hrc Hmax].
    destruct (updateBook_store now id body s) as [->|[oid [b [Hl ->]]]]; auto.
    apply capRespected_replaceDoc; auto.
    unfold capRespected, applyUpdate. simpl. rewrite Hrc, Hmax. simpl.
    apply Hs. now apply lookup_In with oid.
  - destruct (success (fst (borrowBook now id body s))) eqn:E.
    + destruct (borrowBook_success now id body s E)
        as [oid [b [uid [_ [Hl [_ E']]]]]].
      cbv zeta in E'. rewrite E'. simpl snd.
      apply capRespected_replaceDoc; auto.
      unfold capRespected. simpl. apply Hs. now apply lookup_In with oid.
    + now rewrite (borrowBook_failure now id body s E).
  - destruct (success (fst (returnBook now id s))) eqn:E.
    + destruct (returnBook_success now id s E) as [oid [b [_ [Hl [_ E']]]]].
      cbv zeta in E'. rewrite E'. simpl snd.
      apply capRespected_replaceDoc; auto.
      unfold capRespected. simpl. lia.
    + now rewrite (returnBook_failure now id s E).
  - destruct (success (fst (renewBook now id body s))) eqn:E.
    + destruct (renewBook_success now id body s E)
        as [oid [b [due [_ [Hl [_ [Hlt E']]]]]]].
      cbv zeta in E'. rewrite E'. simpl snd.
      apply capRespected_replaceDoc; auto.
      unfold capRespected. simpl. lia.
    + now rewrite (renewBook_failure now id body s E).
Qed.

(** C7, as the code has it.  In every collection reachable from the
    empty one by Create, Update, Borrow, Return and Renew requests in
    which no Create and no Update names [renewalCount] or [maxRenewals],
    every record has [renewalCount] at most [maxRenewals]. *)
Theorem renewal_cap_holds s :
  ReachableBy leavesCounters s ->
  forall b, In b s -> (renewalCount b <= maxRenewals b)%N.
Proof.
  induction 1 as [|s r Hreach IH Hr].
  - intros b [].
  - now apply handle_keeps_cap.
Qed.

(** ** List *)

Lemma insertNewestFirst_perm b l :
  Permutation (b :: l) (insertNewestFirst b l).
Proof.
  induction l as [|x r IH]; simpl; [reflexivity|].
  destruct (createdAt x <=? createdAt b); [reflexivity|].
  rewrite perm_swap. now constructor.
Qed.

Lemma sortNewestFirst_perm l : Permutation l (sortNewestFirst l).
Proof.
  induction l as [|x r IH]; simpl; [constructor|].
  rewrite <- insertNewestFirst_perm. now constructor.
Qed.

Lemma insertNewestFirst_hd x b r :
  createdAt b < createdAt x -> HdRel newestFirst x r ->
  HdRel newestFirst x (insertNewestFirst b r).
Proof.
  intros Hlt Hr. destruct r as [|y r]; simpl.
  - constructor. unfold newestFirst. lia.
  - destruct (createdAt y <=? createdAt b).
    + constructor. unfold newestFirst. lia.
    + constructor. now inversion Hr.
Qed.

Lemma insertNewestFirst_sorted b l :
  Sorted newestFirst l -> Sorted newestFirst (insertNewestFirst b l).
Proof.
  induction 1 as [|x r Hs IH Hhd]; simpl.
  - repeat constructor.
  - destruct (Z.leb_spec (createdAt x) (createdAt b)) as [Hle|Hlt].
    + constructor; [now constructor|]. constructor. exact Hle.
    + constructor; [exact IH|]. now apply insertNewestFirst_hd.
Qed.

Lemma sortNewestFirst_sorted l : StronglySorted newestFirst (sortNewestFirst l).
Proof.
  apply Sorted_StronglySorted.
  - intros a b c Hab Hbc. unfold newestFirst in *. lia.
  - induction l as [|x r IH]; simpl; [constructor|].
    now apply insertNewestFirst_sorted.
Qed.

Lemma getAllBooks_runs query s :
  getAllBooks query s
  = (mkReply 200 true
       (Some (List.length (sortNewestFirst (filter (matches (buildQuery query)) s))))
       (Docs (sortNewestFirst (filter (matches (buildQuery query)) s))) None None,
     s).
Proof. reflexivity. Qed.

Lemma truthy_dropEmpty (o : option string) :
  truthy (dropEmpty o) = truthy o /\ (truthy o = true -> dropEmpty o = o).
Proof.
  destruct o as [v|]; [|now split].
  unfold truthy, falsy, dropEmpty.
  destruct (v =? "")%string eqn:E; simpl; [now split|].
  rewrite E. now split.
Qed.




(** * Further properties of the handlers and of the code around them *)

(** ** Identifiers and the collection *)

Lemma lookup_other_replaceDoc (oid : ObjectId) (doc : Book) (s : Store) :
  oid <> _id doc -> lookup oid (replaceDoc doc s) = lookup oid s.
Proof.
  unfold lookup, replaceDoc. intros Hne.
  induction s as [|d s IH]; simpl; [reflexivity|].
  destruct (N.eqb_spec (_id d) (_id doc)) as [E|E].
  - destruct (N.eqb_spec (_id doc) oid) as [E'|_]; [congruence|].
    destruct (N.eqb_spec (_id d) oid) as [E'|_]; [congruence|]. exact IH.
  - destruct (_id d =? oid)%N; [reflexivity|exact IH].
Qed.

Lemma ids_replaceDoc (doc : Book) (s : Store) :
  map _id (replaceDoc doc s) = map _id s.
Proof.
  unfold replaceDoc. rewrite map_map. apply map_ext_in. intros d _.
  destruct (N.eqb_spec (_id d) (_id doc)) as [E|_]; [now rewrite E|reflexivity].
Qed.

Lemma In_replaceDoc_other (doc d : Book) (s : Store) :
  In d (replaceDoc doc s) -> d = doc \/ (In d s /\ _id d <> _id doc).
Proof.
  unfold replaceDoc. intros H. apply in_map_iff in H.
  destruct H as [x [Hx Hin]].
  destruct (N.eqb_spec (_id x) (_id doc)) as [E|E]; subst; auto.
Qed.

Lemma lookup_without (oid oid' : ObjectId) (s : Store) :
  lookup oid' (filter (fun d => negb (_id d =? oid)%N) s)
  = if (oid' =? oid)%N then None else lookup oid' s.
Proof.
  unfold lookup. induction s as [|d s IH]; simpl.
  - now destruct (oid' =? oid)%N.
  - destruct (N.eqb_spec (_id d) oid) as [E|E]; simpl.
    + rewrite IH. destruct (N.eqb_spec oid' oid) as [E'|E']; [reflexivity|].
      destruct (N.eqb_spec (_id d) oid') as [E''|_]; [congruence|reflexivity].
    + destruct (N.eqb_spec (_id d) oid') as [E'|E'].
      * destruct (N.eqb_spec oid' oid) as [E''|_]; [congruence|reflexivity].
      * exact IH.
Qed.

Lemma newObjectId_above (s : Store) (d : Book) :
  In d s -> (_id d < newObjectId s)%N.
Proof.
  unfold newObjectId. induction s as [|x s IH]; simpl; [intros []|].
  intros [->|Hin]; [lia|]. specialize (IH Hin). lia.
Qed.

Lemma newObjectId_fresh (s : Store) : lookup (newObjectId s) s = None.
Proof.
  unfold lookup. destruct (find _ s) as [d|] eqn:F; [|reflexivity].
  apply find_some in F. destruct F as [Hin E]. apply N.eqb_eq in E.
  pose proof (newObjectId_above s d Hin). lia.
Qed.

Lemma lookup_app_new (oid : ObjectId) (s : Store) (doc : Book) :
  lookup oid (s ++ [doc])
  = match lookup oid s with
    | Some d => Some d
    | None => if (_id doc =? oid)%N then Some doc else None
    end.
Proof.
  unfold lookup. induction s as [|d s IH]; simpl; [reflexivity|].
  destruct (_id d =? oid)%N; [reflexivity|exact IH].
Qed.

(** ** Replies to identifiers that are not identifiers *)

Lemma getBookById_runs id s :
  getBookById id s
  = match castObjectId id with
    | None => (NotFound, s)
    | Some oid =>
        match lookup oid s with
        | None => (NotFound, s)
        | Some b => (ok 200 (Doc b) None, s)
        end
    end.
Proof.
  unfold getBookById, tryCatch, bind, ret, Book_findById.
  destruct (castObjectId id) as [oid|]; [|reflexivity].
  destruct (lookup oid s); reflexivity.
Qed.

Lemma deleteBook_runs id s :
  deleteBook id s
  = match castObjectId id with
    | None => (NotFound, s)
    | Some oid =>
        match lookup oid s with
        | None => (NotFound, s)
        | Some _ =>
            (ok 200 EmptyObject (Some "Book deleted successfully"),
             filter (fun d => negb (_id d =? oid)%N) s)
        end
    end.
Proof.
  unfold deleteBook, tryCatch, bind, ret, Book_findByIdAndDelete.
  destruct (castObjectId id) as [oid|]; [|reflexivity].
  destruct (lookup oid s); reflexivity.
Qed.

Lemma updateBook_runs now id body s :
  updateBook now id body s
  = match castObjectId id with
    | None => (NotFound, s)
    | Some oid =>
        match castFailures body with
        | CastViolation _ _ :: _ => (NotFound, s)
        | DateViolation _ :: _ =>
            (fail 500 (Text "Server error while updating book"), s)
        | _ =>
            match violations false body with
            | [] =>
                match lookup oid s with
                | None => (NotFound, s)
                | Some b =>
                    if isSome (Body.isbn body)
                       && isbnTaken (isbn (applyUpdate now body b))
                            (filter (fun d => negb (_id d =? oid)%N) s)
                    then (fail 500 (Text "Server error while updating book"), s)
                    else (ok 200 (Doc (applyUpdate now body b)) None,
                          replaceDoc (applyUpdate now body b) s)
                end
            | v :: vs => (fail 400 (Messages (v :: vs)), s)
            end
        end
    end.
Proof.
  unfold updateBook, tryCatch, bind, ret, Book_findByIdAndUpdate, updateCast.
  destruct (castObjectId id) as [oid|]; [|reflexivity].
  assert (match violations false body with
          | [] =>
              match lookup oid s with
              | None => (NotFound, s)
              | Some b =>
                  if isSome (Body.isbn body)
                     && isbnTaken (isbn (applyUpdate now body b))
                          (filter (fun d => negb (_id d =? oid)%N) s)
                  then (fail 500 (Text "Server error while updating book"), s)
                  else (ok 200 (Doc (applyUpdate now body b)) None,
                        replaceDoc (applyUpdate now body b) s)
              end
          | v :: vs => (fail 400 (Messages (v :: vs)), s)
          end
          = (let (o, s') :=
               let (o, s') :=
                 match violations false body with
                 | [] =>
                     match lookup oid s with
                     | Some b =>
                         let doc := applyUpdate now body b in
                         if isSome (Body.isbn body)
                            && isbnTaken (isbn doc)
                                 (filter (fun d => negb (_id d =? oid)%N) s)
                         then (Rejected DuplicateKey, s)
                         else (Resolved (Some doc), replaceDoc doc s)
                     | None => (Resolved None, s)
                     end
                 | v :: vs => (Rejected (ValidationError (v :: vs)), s)
                 end in
               match o with
               | Resolved a =>
                   match a with
                   | Some b => fun s0 : Store => (Resolved (ok 200 (Doc b) None), s0)
                   | None => fun s0 : Store => (Resolved NotFound, s0)
                   end s'
               | Rejected e => (Rejected e, s')
               end in
             match o with
             | Resolved r => (r, s')
             | Rejected e =>
                 (match e with
                  | ValidationError vs => fail 400 (Messages vs)
                  | CastError _ _ => NotFound
                  | _ => fail 500 (Text "Server error while updating book")
                  end, s')
             end)) as E.
  { destruct (violations false body); [|reflexivity].
    destruct (lookup oid s) as [b|]; [|reflexivity].
    cbv zeta. destruct (isSome (Body.isbn body) && _); reflexivity. }
  destruct (castFailures body) as [|[t|p0 v0|p0 v0|p0] l]; try exact (eq_sym E);
    reflexivity.
Qed.

(** X1.  An identifier that is not 24 hexadecimal digits is answered as
    NotFound by GetById, Update and Delete, but as a server error (500)
    by Borrow and Return and as a bad request (400) by Renew, both
    carrying the message of the cast error; none of the six writes
    anything. *)
Theorem malformed_id_replies now id body bbody rbody s :
  castObjectId id = None ->
  getBookById id s = (NotFound, s)
  /\ updateBook now id body s = (NotFound, s)
  /\ deleteBook id s = (NotFound, s)
  /\ returnBook now id s = (fail 500 (MessageOf (CastError "_id" id)), s)
  /\ renewBook now id rbody s = (fail 400 (MessageOf (CastError "_id" id)), s)
  /\ (borrowerMissing bbody = false ->
      borrowBook now id bbody s = (fail 500 (MessageOf (CastError "_id" id)), s))
  /\ fail 500 (MessageOf (CastError "_id" id)) <> NotFound
  /\ fail 400 (MessageOf (CastError "_id" id)) <> NotFound.
Proof.
  intros H.
  rewrite getBookById_runs, updateBook_runs, deleteBook_runs, H.
  repeat split; try discriminate.
  - now apply returnBook_malformed.
  - now apply renewBook_malformed.
  - intros H0. now apply borrowBook_malformed.
Qed.

(** ** Create, Get and Delete *)

(** X2.  The book a successful Create answers with is stored under an
    identifier no record had before, GetById of that identifier answers
    with the same book, and every record that could be looked up before
    still resolves to what it was. *)
Theorem create_then_get now body s :
  success (fst (createBook now body s)) = true ->
  exists b,
    createBook now body s = (ok 201 (Doc b) None, s ++ [b])
    /\ lookup (_id b) s = None
    /\ lookup (_id b) (s ++ [b]) = Some b
    /\ (forall id, castObjectId id = Some (_id b) ->
          getBookById id (s ++ [b]) = (ok 200 (Doc b) None, s ++ [b]))
    /\ (forall oid d, lookup oid s = Some d -> lookup oid (s ++ [b]) = Some d).
Proof.
  intros H. destruct (createBook_success now body s H) as [_ [_ E]].
  cbv zeta in E. eexists. split; [exact E|].
  set (b := newDocument (newObjectId s) now body).
  assert (lookup (_id b) s = None) as F by apply newObjectId_fresh.
  assert (lookup (_id b) (s ++ [b]) = Some b) as L.
  { rewrite lookup_app_new, F. now rewrite N.eqb_refl. }
  split; [exact F|]. split; [exact L|]. split.
  - intros id Hc. now rewrite getBookById_runs, Hc, L.
  - intros oid d Hd. now rewrite lookup_app_new, Hd.
Qed.

(** X3.  Delete of an identifier that resolves answers 200 and removes
    the record: the identifier no longer resolves, GetById and a second
    Delete of it answer NotFound, and every other identifier resolves to
    what it did.  Delete of an identifier that resolves to nothing
    answers NotFound and removes nothing. *)
Theorem delete_removes_one id s :
  (forall oid b,
      castObjectId id = Some oid -> lookup oid s = Some b ->
      exists s',
        deleteBook id s
          = (ok 200 EmptyObject (Some "Book deleted successfully"), s')
        /\ lookup oid s' = None
        /\ ~ In b s'
        /\ getBookById id s' = (NotFound, s')
        /\ deleteBook id s' = (NotFound, s')
        /\ (forall oid', oid' <> oid -> lookup oid' s' = lookup oid' s))
  /\ (forall oid,
        castObjectId id = Some oid -> lookup oid s = None ->
        deleteBook id s = (NotFound, s)).
Proof.
  split.
  - intros oid b Hc Hl. eexists. rewrite deleteBook_runs, Hc, Hl.
    split; [reflexivity|].
    assert (lookup oid (filter (fun d => negb (_id d =? oid)%N) s) = None) as L.
    { rewrite lookup_without. now rewrite N.eqb_refl. }
    split; [exact L|]. split.
    + intros Hin. apply filter_In in Hin. destruct Hin as [_ Hin].
      rewrite (lookup_id _ _ _ Hl), N.eqb_refl in Hin. discriminate.
    + split; [now rewrite getBookById_runs, Hc, L|].
      split; [now rewrite deleteBook_runs, Hc, L|].
      intros oid' Hne. rewrite lookup_without.
      destruct (N.eqb_spec oid' oid); [contradiction|reflexivity].
  - intros oid Hc Hl. now rewrite deleteBook_runs, Hc, Hl.
Qed.

(** ** Update *)

Lemma isbnTaken_false (v : string) (s : Store) :
  (forall d, In d s -> isbn d <> Some v) -> isbnTaken (Some v) s = false.
Proof.
  intros H. unfold isbnTaken.
  destruct (existsb _ s) eqn:E; [|reflexivity].
  apply existsb_exists in E. destruct E as [d [Hin Hd]].
  destruct (isbn d) as [w|] eqn:Hi; simpl in Hd; [|discriminate].
  apply String.eqb_eq in Hd. subst w. now apply H in Hin.
Qed.

(** X4.  An Update whose values cast to their paths, that the
    validators accept and that takes no other record's ISBN answers 200
    with the merged record and stores it: every path the body names
    holds the value of the body (a string trimmed, a borrower cast, a
    count as a natural number), every path it does not name holds what
    the record held; the record keeps its identifier and its creation
    time, [updatedAt] is the time of the request, GetById answers with
    the merged record, and every other identifier resolves to what it
    did. *)
Theorem update_merges now id body s oid b :
  castObjectId id = Some oid -> lookup oid s = Some b ->
  castFailures body = [] ->
  violations false body = [] ->
  (forall i d, Body.isbn body = Some i -> In d s -> _id d <> oid ->
     isbn d <> Some (trim i)) ->
  exists doc,
    updateBook now id body s = (ok 200 (Doc doc) None, replaceDoc doc s)
    /\ lookup oid (replaceDoc doc s) = Some doc
    /\ getBookById id (replaceDoc doc s) = (ok 200 (Doc doc) None, replaceDoc doc s)
    /\ _id doc = _id b /\ createdAt doc = createdAt b /\ updatedAt doc = now
    /\ (forall oid', oid' <> oid ->
          lookup oid' (replaceDoc doc s) = lookup oid' s)
    /\ title doc = orKeep (title b) (option_map trim (Body.title body))
    /\ author doc = orKeep (author b) (option_map trim (Body.author body))
    /\ description doc
       = orKeep (description b)
           (option_map (fun v => Some (trim v)) (Body.description body))
    /\ genre doc = orKeep (genre b) (option_map trim (Body.genre body))
    /\ category doc = orKeep (category b) (option_map trim (Body.category body))
    /\ isbn doc
       = orKeep (isbn b) (option_map (fun v => Some (trim v)) (Body.isbn body))
    /\ coverUrl doc = orKeep (coverUrl b) (option_map trim (Body.coverUrl body))
    /\ coverImage doc
       = orKeep (coverImage b)
           (option_map (fun v => Some (trim v)) (Body.coverImage body))
    /\ publishedYear doc
       = orKeep (publishedYear b) (option_map Some (Body.publishedYear body))
    /\ rating doc = orKeep (rating b) (Body.rating body)
    /\ totalReviews doc
       = orKeep (totalReviews b) (option_map Z.to_N (Body.totalReviews body))
    /\ available doc = orKeep (available b) (Body.available body)
    /\ status doc = orKeep (status b) (Body.status body)
    /\ borrowedBy doc
       = orKeep (borrowedBy b) (option_map castBorrower (Body.borrowedBy body))
    /\ borrowedAt doc = orKeep (borrowedAt b) (option_map Some (Body.borrowedAt body))
    /\ dueDate doc = orKeep (dueDate b) (option_map Some (Body.dueDate body))
    /\ borrowDate doc = orKeep (borrowDate b) (option_map Some (Body.borrowDate body))
    /\ renewalCount doc
       = orKeep (renewalCount b) (option_map Z.to_N (Body.renewalCount body))
    /\ maxRenewals doc
       = orKeep (maxRenewals b) (option_map Z.to_N (Body.maxRenewals body))
    /\ tags doc = orKeep (tags b) (option_map (map trim) (Body.tags body))
    /\ isNewRelease doc = orKeep (isNewRelease b) (Body.isNewRelease body).
Proof.
  intros Hc Hl Hcast Hv Hfree.
  assert (isSome (Body.isbn body)
          && isbnTaken (isbn (applyUpdate now body b))
               (filter (fun d => negb (_id d =? oid)%N) s) = false) as Hno.
  { destruct (Body.isbn body) as [i|] eqn:Hi; [|reflexivity].
    simpl. unfold applyUpdate. simpl. rewrite Hi.
    apply isbnTaken_false. intros d Hd. apply filter_In in Hd.
    destruct Hd as [Hin Hne]. apply (Hfree i d eq_refl Hin).
    intros E. rewrite E, N.eqb_refl in Hne. discriminate. }
  exists (applyUpdate now body b).
  rewrite updateBook_runs, Hc, Hcast, Hv, Hl, Hno.
  assert (_id (applyUpdate now body b) = oid) as Hid.
  { simpl. apply (lookup_id _ _ _ Hl). }
  assert (lookup oid (replaceDoc (applyUpdate now body b) s)
          = Some (applyUpdate now body b)) as L.
  { now apply (lookup_replaceDoc oid s b). }
  split; [reflexivity|]. split; [exact L|].
  split; [now rewrite getBookById_runs, Hc, L|].
  split; [reflexivity|]. split; [reflexivity|]. split; [reflexivity|].
  split.
  { intros oid' Hne. apply lookup_other_replaceDoc. now rewrite Hid. }
  unfold applyUpdate, orKeep. cbn -[trim castBorrower].
  repeat split;
    match goal with
    | |- context [match ?o with _ => _ end] => destruct o; reflexivity
    end.
Qed.


(** ** Return and repeated transitions *)

(** X6.  Return of a book whose [available] is true answers 400 'Book is
    not currently borrowed'; Return of an identifier that resolves to
    nothing answers NotFound; and every Return that does not answer a
    success leaves the collection as it was. *)
Theorem return_refusals now id s :
  (forall oid b,
      castObjectId id = Some oid -> lookup oid s = Some b ->
      available b = true ->
      returnBook now id s = (NotCurrentlyBorrowed, s))
  /\ (forall oid,
        castObjectId id = Some oid -> lookup oid s = None ->
        returnBook now id s = (NotFound, s))
  /\ (success (fst (returnBook now id s)) = false ->
      snd (returnBook now id s) = s).
Proof.
  repeat split.
  - intros oid b Hc Hl Hav.
    now rewrite (returnBook_found now id s oid b Hc Hl), Hav.
  - intros oid Hc Hl. now apply returnBook_absent with oid.
  - apply returnBook_failure.
Qed.

(** X7.  After a successful Borrow, a second Borrow of the same book (by
    any request that names a borrower) answers NotAvailable; after a
    successful Return, a second Return answers 'Book is not currently
    borrowed', a Renew does not succeed, and both leave the collection
    as the Return left it. *)
Theorem repeated_transitions_refused :
  (forall now now' id body body' s,
      success (fst (borrowBook now id body s)) = true ->
      borrowerMissing body' = false ->
      borrowBook now' id body' (snd (borrowBook now id body s))
        = (NotAvailable, snd (borrowBook now id body s)))
  /\ (forall now now' id s,
        success (fst (returnBook now id s)) = true ->
        returnBook now' id (snd (returnBook now id s))
          = (NotCurrentlyBorrowed, snd (returnBook now id s)))
  /\ (forall now now' id body s,
        success (fst (returnBook now id s)) = true ->
        (fst (renewBook now' id body (snd (returnBook now id s))) = NotBorrowed
         \/ fst (renewBook now' id body (snd (returnBook now id s)))
            = RenewalLimitExceeded)
        /\ snd (renewBook now' id body (snd (returnBook now id s)))
           = snd (returnBook now id s)).
Proof.
  split; [|split].
  - intros now now' id body body' s H H0.
    destruct (borrowBook_success now id body s H)
      as [oid [b [uid [Hc [Hl [_ E]]]]]].
    cbv zeta in E. rewrite E. simpl snd.
    erewrite borrowBook_found; [|exact H0|exact Hc|].
    2:{ apply (lookup_replaceDoc oid s b); [exact Hl|apply (lookup_id _ _ _ Hl)]. }
    reflexivity.
  - intros now now' id s H.
    destruct (returnBook_success now id s H) as [oid [b [Hc [Hl [_ E]]]]].
    cbv zeta in E. rewrite E. simpl snd.
    erewrite returnBook_found; [|exact Hc|].
    2:{ apply (lookup_replaceDoc oid s b); [exact Hl|apply (lookup_id _ _ _ Hl)]. }
    reflexivity.
  - intros now now' id body s H.
    destruct (returnBook_success now id s H) as [oid [b [Hc [Hl [_ E]]]]].
    cbv zeta in E. rewrite E. simpl snd.
    erewrite renewBook_found; [|exact Hc|].
    2:{ apply (lookup_replaceDoc oid s b); [exact Hl|apply (lookup_id _ _ _ Hl)]. }
    simpl. destruct (maxRenewals b <=? 0)%N; split; auto.
Qed.

(** ** A lending request writes one record *)

Lemma lending_writes_one_record now_doc oid b doc s :
  lookup oid s = Some b -> _id doc = oid -> sameCatalogue b doc ->
  now_doc = replaceDoc doc s ->
  map _id now_doc = map _id s
  /\ (forall oid', oid' <> oid -> lookup oid' now_doc = lookup oid' s)
  /\ (forall b0 b', lookup oid s = Some b0 -> lookup oid now_doc = Some b' ->
        sameCatalogue b0 b').
Proof.
  intros Hl Hid Hsame ->. split; [apply ids_replaceDoc|]. split.
  - intros oid' Hne. apply lookup_other_replaceDoc. now rewrite Hid.
  - intros b0 b' H0 H'. rewrite Hl in H0. injection H0 as <-.
    rewrite (lookup_replaceDoc oid s b doc Hl Hid) in H'. now injection H' as <-.
Qed.

(** X8.  Borrow, Return and Renew write at most the record they address.
    Whatever the reply, the collection keeps its identifiers in their
    order (hence its size), every other identifier resolves to what it
    did, and the addressed record keeps its identifier, its catalogue
    fields (title, author, description, genre, category, ISBN, cover,
    year, rating, reviews, tags, new-release flag), its [maxRenewals] and
    its creation time. *)
Theorem lending_touches_one_record r id oid s :
  lendingTarget r = Some id -> castObjectId id = Some oid ->
  map _id (snd (handle r s)) = map _id s
  /\ (forall oid', oid' <> oid ->
        lookup oid' (snd (handle r s)) = lookup oid' s)
  /\ (forall b b',
        lookup oid s = Some b -> lookup oid (snd (handle r s)) = Some b' ->
        sameCatalogue b b').
Proof.
  intros Ht Hc.
  assert (forall b, sameCatalogue b b) as Hrefl.
  { intros b. unfold sameCatalogue. repeat split. }
  assert (snd (handle r s) = s ->
          map _id (snd (handle r s)) = map _id s
          /\ (forall oid', oid' <> oid ->
                lookup oid' (snd (handle r s)) = lookup oid' s)
          /\ (forall b b',
                lookup oid s = Some b -> lookup oid (snd (handle r s)) = Some b' ->
                sameCatalogue b b')) as Hsame.
  { intros ->. split; [reflexivity|]. split; [reflexivity|].
    intros b b' H1 H2. rewrite H1 in H2. injection H2 as <-. apply Hrefl. }
  destruct r as [now body|now id' body|now id' body|now id'|now id' body];
    simpl in Ht; try discriminate; injection Ht as ->; simpl handle in *.
  - destruct (success (fst (borrowBook now id body s))) eqn:E.
    + destruct (borrowBook_success now id body s E)
        as [oid0 [b [uid [Hc0 [Hl [_ E']]]]]].
      cbv zeta in E'. rewrite Hc in Hc0. injection Hc0 as <-.
      rewrite E'. simpl snd.
      eapply lending_writes_one_record; [exact Hl| | |reflexivity].
      * apply (lookup_id _ _ _ Hl).
      * unfold sameCatalogue. simpl. repeat split.
    + apply Hsame. now apply borrowBook_failure.
  - destruct (success (fst (returnBook now id s))) eqn:E.
    + destruct (returnBook_success now id s E) as [oid0 [b [Hc0 [Hl [_ E']]]]].
      cbv zeta in E'. rewrite Hc in Hc0. injection Hc0 as <-.
      rewrite E'. simpl snd.
      eapply lending_writes_one_record; [exact Hl| | |reflexivity].
      * apply (lookup_id _ _ _ Hl).
      * unfold sameCatalogue. simpl. repeat split.
    + apply Hsame. now apply returnBook_failure.
  - destruct (success (fst (renewBook now id body s))) eqn:E.
    + destruct (renewBook_success now id body s E)
        as [oid0 [b [due [Hc0 [Hl [_ [_ E']]]]]]].
      cbv zeta in E'. rewrite Hc in Hc0. injection Hc0 as <-.
      rewrite E'. simpl snd.
      eapply lending_writes_one_record; [exact Hl| | |reflexivity].
      * apply (lookup_id _ _ _ Hl).
      * unfold sameCatalogue. simpl. repeat split.
    + apply Hsame. now apply renewBook_failure.
Qed.

(** ** Renewals in a row *)



(** ** Overdue *)



(** ** The two shelves of the model *)

Lemma findAvailable_runs s :
  resolved Book_findAvailable s
  = filter (fun b => available b && (status b =? "Available")%string) s.
Proof.
  unfold resolved, Book_findAvailable. simpl. apply filter_ext.
  intros b. unfold matches. simpl. now destruct (available b).
Qed.

Lemma findBorrowed_runs s :
  resolved Book_findBorrowed s
  = filter (fun b => negb (available b) && (status b =? "Borrowed")%string) s.
Proof.
  unfold resolved, Book_findBorrowed. simpl. apply filter_ext.
  intros b. unfold matches. simpl. now destruct (available b).
Qed.

(** X12.  [findAvailable] and [findBorrowed] never return the same
    record, and a record whose [available] and [status] disagree
    ([available] false with status 'Available', say) is returned by
    neither.  The record a successful Borrow stores is found by
    [findBorrowed] and not by [findAvailable]; the record a successful
    Return stores is found by [findAvailable] and not by
    [findBorrowed]. *)
Theorem shelves_follow_transitions :
  (forall s b,
      ~ (In b (resolved Book_findAvailable s)
         /\ In b (resolved Book_findBorrowed s)))
  /\ (forall s b,
        In b s -> available b = false -> status b = "Available" ->
        ~ In b (resolved Book_findAvailable s)
        /\ ~ In b (resolved Book_findBorrowed s))
  /\ (forall now id body s,
        success (fst (borrowBook now id body s)) = true ->
        exists b',
          fst (borrowBook now id body s)
            = ok 200 (Doc b') (Some "Book borrowed successfully")
          /\ In b' (resolved Book_findBorrowed (snd (borrowBook now id body s)))
          /\ ~ In b' (resolved Book_findAvailable (snd (borrowBook now id body s))))
  /\ (forall now id s,
        success (fst (returnBook now id s)) = true ->
        exists b',
          fst (returnBook now id s)
            = ok 200 (Doc b') (Some "Book returned successfully")
          /\ In b' (resolved Book_findAvailable (snd (returnBook now id s)))
          /\ ~ In b' (resolved Book_findBorrowed (snd (returnBook now id s)))).
Proof.
  split; [|split; [|split]].
  - intros s b [H1 H2]. rewrite findAvailable_runs in H1.
    rewrite findBorrowed_runs in H2.
    apply filter_In in H1. apply filter_In in H2.
    destruct H1 as [_ H1]. destruct H2 as [_ H2].
    destruct (available b); simpl in *; discriminate.
  - intros s b Hin Hav Hst. rewrite findAvailable_runs, findBorrowed_runs.
    split; intros H; apply filter_In in H; destruct H as [_ H];
      rewrite Hav, Hst in H; simpl in H; discriminate.
  - intros now id body s H.
    destruct (borrowBook_success now id body s H)
      as [oid [b [uid [Hc [Hl [_ E]]]]]].
    cbv zeta in E. rewrite E. simpl fst. simpl snd.
    eexists. split; [reflexivity|].
    rewrite findAvailable_runs, findBorrowed_runs. split.
    + apply filter_In. split; [|reflexivity].
      apply lookup_In with oid.
      apply (lookup_replaceDoc oid s b); [exact Hl|apply (lookup_id _ _ _ Hl)].
    + intros Hin. apply filter_In in Hin. destruct Hin as [_ Hin].
      discriminate Hin.
  - intros now id s H.
    destruct (returnBook_success now id s H) as [oid [b [Hc [Hl [_ E]]]]].
    cbv zeta in E. rewrite E. simpl fst. simpl snd.
    eexists. split; [reflexivity|].
    rewrite findAvailable_runs, findBorrowed_runs. split.
    + apply filter_In. split; [|reflexivity].
      apply lookup_In with oid.
      apply (lookup_replaceDoc oid s b); [exact Hl|apply (lookup_id _ _ _ Hl)].
    + intros Hin. apply filter_In in Hin. destruct Hin as [_ Hin].
      discriminate Hin.
Qed.

(** ** List: the edges of the query string *)

(** X13.  List reads [available] as a string: every value other than
    'true' ('false', but also 'True', 'yes' or '1') selects the records
    whose [available] is false. *)
Theorem list_available_is_a_string a s :
  a <> "true" ->
  exists l,
    getAllBooks (Query.mk None None None (Some a) None) s
      = (mkReply 200 true (Some (List.length l)) (Docs l) None None, s)
    /\ l = sortNewestFirst (filter (fun b => negb (available b)) s)
    /\ (forall b, In b l <-> In b s /\ available b = false).
Proof.
  intros Ha. eexists. split; [apply getAllBooks_runs|].
  assert (filter (matches (buildQuery (Query.mk None None None (Some a) None))) s
          = filter (fun b => negb (available b)) s) as ->.
  { apply filter_ext. intros b. unfold matches, buildQuery. simpl.
    apply String.eqb_neq in Ha. rewrite Ha. now destruct (available b). }
  split; [reflexivity|].
  intros b. split.
  - intros H. apply (Permutation_in _ (Permutation_sym (sortNewestFirst_perm _))) in H.
    apply filter_In in H. destruct H as [Hin Hb].
    split; [exact Hin|]. now destruct (available b).
  - intros [Hin Hb]. apply (Permutation_in _ (sortNewestFirst_perm _)).
    apply filter_In. split; [exact Hin|]. now rewrite Hb.
Qed.

(** X14.  List with no parameter returns every record, newest first, and
    counts them all; and a [q], [category], [genre] or [status] given as
    the empty string is no filter at all: the reply is the one the query
    gets without it.  List never writes. *)
Theorem list_without_filters :
  (forall s,
      exists l,
        getAllBooks (Query.mk None None None None None) s
          = (mkReply 200 true (Some (List.length s)) (Docs l) None None, s)
        /\ Permutation l s /\ StronglySorted newestFirst l)
  /\ (forall query s,
        getAllBooks query s
        = getAllBooks
            (Query.mk (dropEmpty (Query.q query)) (dropEmpty (Query.category query))
               (dropEmpty (Query.genre query)) (Query.available query)
               (dropEmpty (Query.status query))) s)
  /\ (forall query s, snd (getAllBooks query s) = s).
Proof.
  split; [|split].
  - intros s. eexists. rewrite getAllBooks_runs.
    assert (filter (matches (buildQuery (Query.mk None None None None None))) s = s)
      as ->.
    { unfold buildQuery, matches. simpl.
      induction s as [|d s IH]; simpl; [reflexivity|]. now rewrite IH. }
    assert (Permutation (sortNewestFirst s) s) as P
      by (symmetry; apply sortNewestFirst_perm).
    rewrite (Permutation_length P).
    split; [reflexivity|]. split; [exact P|apply sortNewestFirst_sorted].
  - intros [q c g a st] s. rewrite !getAllBooks_runs.
    assert (buildQuery (Query.mk q c g a st)
            = buildQuery (Query.mk (dropEmpty q) (dropEmpty c) (dropEmpty g) a
                            (dropEmpty st))) as ->; [|reflexivity].
    destruct (truthy_dropEmpty q) as [Aq Bq].
    destruct (truthy_dropEmpty c) as [Ac Bc].
    destruct (truthy_dropEmpty g) as [Ag Bg].
    destruct (truthy_dropEmpty st) as [Ast Bst].
    unfold buildQuery.
    cbn [Query.q Query.category Query.genre Query.available Query.status].
    rewrite Aq, Ac, Ag, Ast.
    destruct (truthy q); [rewrite (Bq eq_refl)|];
      (destruct (truthy c); [rewrite (Bc eq_refl)|]);
      (destruct (truthy g); [rewrite (Bg eq_refl)|]);
      (destruct (truthy st); [rewrite (Bst eq_refl)|]);
      reflexivity.
  - intros query s. now rewrite getAllBooks_runs.
Qed.

(** ** What the validators let through *)

Lemma checkRequired_nil requireAll o missing limit tooLong :
  checkRequired requireAll o missing limit tooLong = []
  <-> nonBlank requireAll o /\ withinBounds limit o.
Proof.
  unfold checkRequired, nonBlank, withinBounds. destruct o as [v|].
  - destruct (String.eqb_spec (trim v) "") as [E|E].
    + split; [discriminate|]. intros [H _]. contradiction.
    + destruct (Z.ltb_spec limit (strlen (trim v))) as [L|L].
      * split; [discriminate|]. intros [_ H]. specialize (H v eq_refl). lia.
      * split; [|reflexivity]. intros _. split; [exact E|].
        intros w Hw. now injection Hw as <-.
  - destruct requireAll.
    + split; [discriminate|]. intros [H _]. discriminate.
    + split; [|reflexivity]. intros _. split; [reflexivity|]. discriminate.
Qed.

Lemma checkMaxLength_nil o limit tooLong :
  checkMaxLength o limit tooLong = [] <-> withinBounds limit o.
Proof.
  unfold checkMaxLength, withinBounds. destruct o as [v|].
  - destruct (Z.ltb_spec limit (strlen (trim v))) as [L|L].
    + split; [discriminate|]. intros H. specialize (H v eq_refl). lia.
    + split; [|reflexivity]. intros _ w Hw. now injection Hw as <-.
  - split; [discriminate|reflexivity].
Qed.

Lemma checkMin_nil o lo tooSmall :
  checkMin o lo tooSmall = [] <-> atLeast lo o.
Proof.
  unfold checkMin, atLeast. destruct o as [v|].
  - destruct (Z.ltb_spec v lo) as [L|L].
    + split; [discriminate|]. intros H. specialize (H v eq_refl). lia.
    + split; [|reflexivity]. intros _ w Hw. now injection Hw as <-.
  - split; [discriminate|reflexivity].
Qed.

Lemma checkMax_nil o hi tooLarge :
  checkMax o hi tooLarge = [] <-> atMost hi o.
Proof.
  unfold checkMax, atMost. destruct o as [v|].
  - destruct (Z.ltb_spec hi v) as [L|L].
    + split; [discriminate|]. intros H. specialize (H v eq_refl). lia.
    + split; [|reflexivity]. intros _ w Hw. now injection Hw as <-.
  - split; [discriminate|reflexivity].
Qed.

Lemma inEnum_In (v : string) : inEnum v = true <-> In v statusEnum.
Proof.
  unfold inEnum. rewrite existsb_exists. split.
  - intros [e [Hin He]]. apply String.eqb_eq in He. now subst.
  - intros Hin. exists v. split; [exact Hin|apply String.eqb_refl].
Qed.

Lemma checkEnum_nil o :
  checkEnum o = [] <-> (forall v, o = Some v -> In v statusEnum).
Proof.
  unfold checkEnum. destruct o as [v|].
  - destruct (inEnum v) eqn:E.
    + split; [|reflexivity]. intros _ w Hw. injection Hw as <-.
      now apply inEnum_In.
    + split; [discriminate|]. intros H. specialize (H v eq_refl).
      apply inEnum_In in H. congruence.
  - split; [discriminate|reflexivity].
Qed.

Lemma checkBorrower_nil o :
  checkBorrower o = []
  <-> (forall b raw, o = Some b -> Body.userId b = Some raw ->
         castObjectId raw <> None).
Proof.
  unfold checkBorrower. destruct o as [b|]; [|split; [discriminate|reflexivity]].
  destruct (Body.userId b) as [raw|] eqn:U.
  - destruct (castObjectId raw) as [oid|] eqn:C; simpl.
    + split; [|reflexivity]. intros _ b' raw' Hb Hr.
      injection Hb as <-. rewrite U in Hr. injection Hr as <-. congruence.
    + split; [discriminate|]. intros H. now specialize (H b raw eq_refl U).
  - split; [|reflexivity]. intros _ b' raw' Hb Hr.
    injection Hb as <-. congruence.
Qed.

Lemma app_nil_both {A} (l l' : list A) :
  l ++ l' = [] <-> l = [] /\ l' = [].
Proof.
  split; [apply app_eq_nil|]. now intros [-> ->].
Qed.

Lemma checkDate_nil path o : checkDate path o = [] <-> validDate o.
Proof.
  unfold checkDate, validDate. destruct o as [t|].
  - destruct (validTime t) eqn:E.
    + split; [|reflexivity]. intros _ t' Ht. now injection Ht as <-.
    + split; [discriminate|]. intros H. specialize (H t eq_refl). congruence.
  - split; [discriminate|reflexivity].
Qed.

(** No validator is violated exactly by the bodies within the bounds of
    the schema, and no value fails to cast exactly in the bodies of the
    types of the schema. *)
Lemma validatorFailures_nil requireAll body :
  validatorFailures requireAll body = [] <-> bodyValid requireAll body.
Proof.
  unfold validatorFailures, bodyValid.
  rewrite !app_nil_both.
  rewrite !checkRequired_nil, checkMaxLength_nil, !checkMin_nil, !checkMax_nil,
    checkEnum_nil.
  tauto.
Qed.

Lemma castFailures_nil body : castFailures body = [] <-> bodyCasts body.
Proof.
  unfold castFailures, bodyCasts.
  rewrite !app_nil_both.
  rewrite checkBorrower_nil, !checkDate_nil.
  tauto.
Qed.

Lemma violations_create_nil body :
  violations true body = [] <-> bodyCasts body /\ bodyValid true body.
Proof.
  unfold violations. rewrite app_nil_both.
  now rewrite castFailures_nil, validatorFailures_nil.
Qed.

Lemma violations_update_nil body :
  violations false body = [] <-> bodyValid false body.
Proof.
  unfold violations. rewrite <- validatorFailures_nil. split.
  - intros H. apply (f_equal (@rev Violation)) in H.
    now rewrite rev_involutive in H.
  - now intros ->.
Qed.

(** The Updates that write: the identifier resolves, every value casts,
    no validator is violated and no other record holds the ISBN. *)
Lemma updateBook_written now id body s :
  snd (updateBook now id body s) = s
  \/ exists oid b,
       castObjectId id = Some oid /\ lookup oid s = Some b
       /\ violations false body = []
       /\ isSome (Body.isbn body)
          && isbnTaken (isbn (applyUpdate now body b))
               (filter (fun d => negb (_id d =? oid)%N) s) = false
       /\ snd (updateBook now id body s) = replaceDoc (applyUpdate now body b) s.
Proof.
  unfold updateBook, tryCatch, bind, ret, Book_findByIdAndUpdate.
  destruct (castObjectId id) as [oid|]; [|now left].
  destruct (updateCast body); [now left|].
  destruct (violations false body) eqn:Hv; [|now left].
  destruct (lookup oid s) as [b|] eqn:Hl; [|now left].
  cbv zeta.
  destruct (isSome (Body.isbn body) && _) eqn:Hi; [now left|].
  right. exists oid, b. repeat split; trivial.
Qed.

Lemma trim_empty_of_falsy (o : option string) :
  nonBlank true o -> falsy o = false.
Proof.
  destruct o as [v|]; simpl; [|discriminate].
  intros H. apply String.eqb_neq. intros ->. now apply H.
Qed.

Lemma isbnTaken_free (o : option string) (s : Store) :
  isbnTaken o s = false
  <-> (forall v d, o = Some v -> In d s -> isbn d <> Some v).
Proof.
  split.
  - intros H v d -> Hin Hd.
    rewrite (isbnTaken_In v d s Hin Hd) in H. discriminate.
  - intros H. destruct o as [v|]; [|reflexivity].
    apply isbnTaken_false. intros d Hd. now apply (H v d).
Qed.

(** X15.  For a body that names schema paths with values of their
    types (strings, integers, booleans, time values), Create succeeds
    exactly when the body is within the bounds of the schema (title and
    author present and not blank, at most 200 and 100 UTF-16 code units
    once trimmed of the white space of [String.prototype.trim];
    description at most 1000; year between 1000 and the schema's
    maximum; rating between 0 and 5; review and renewal counters not
    negative; status one of the four of the enum), its borrower
    identifier is an ObjectId and its dates are time values of a Date,
    and no stored record holds the trimmed ISBN of the body.  A Create
    that does not succeed adds nothing. *)
Theorem create_accepts_exactly now body s :
  (success (fst (createBook now body s)) = true
   <-> bodyCasts body /\ bodyValid true body
       /\ (forall i d, Body.isbn body = Some i -> In d s ->
             isbn d <> Some (trim i)))
  /\ (success (fst (createBook now body s)) = false ->
      snd (createBook now body s) = s).
Proof.
  split; [|apply createBook_failure].
  assert ((forall i d, Body.isbn body = Some i -> In d s -> isbn d <> Some (trim i))
          <-> isbnTaken (option_map trim (Body.isbn body)) s = false) as Hfree.
  { rewrite isbnTaken_free. split.
    - intros H v d Hv Hin. destruct (Body.isbn body) as [i|]; [|discriminate].
      injection Hv as <-. now apply (H i d).
    - intros H i d Hi Hin. apply (H (trim i) d); [now rewrite Hi|exact Hin]. }
  rewrite Hfree. split.
  - intros H. destruct (createBook_success now body s H) as [[_ [_ Hv]] [Hi _]].
    apply violations_create_nil in Hv. destruct Hv as [Hcast Hb].
    split; [exact Hcast|]. split; [exact Hb|exact Hi].
  - intros [Hcast [Hb Hi]]. rewrite createBook_accepts; [reflexivity| |exact Hi].
    pose proof Hb as [Ht [_ [Ha _]]].
    repeat split; [now apply trim_empty_of_falsy|now apply trim_empty_of_falsy|].
    apply violations_create_nil. now split.
Qed.

(** ** Invariants of the collections the API builds *)

Lemma newDocument_valid oid now body :
  bodyValid true body -> schemaValid (newDocument oid now body).
Proof.
  intros [Ht [Htl [Ha [Hal [Hd [Hy1 [Hy2 [Hr1 [Hr2 [_ [Hst _]]]]]]]]]]].
  unfold schemaValid, newDocument. simpl.
  destruct (Body.title body) as [t|]; [|discriminate Ht].
  destruct (Body.author body) as [a|]; [|discriminate Ha].
  simpl in *.
  split; [exact Ht|]. split; [now apply Htl|].
  split; [exact Ha|]. split; [now apply Hal|].
  split.
  { intros d Hd'. destruct (Body.description body) as [d0|]; [|discriminate].
    injection Hd' as <-. now apply Hd. }
  split.
  { intros y Hy. split; [now apply Hy1|now apply Hy2]. }
  split.
  { destruct (Body.rating body) as [r|]; simpl; [|lia].
    split; [now apply Hr1|now apply Hr2]. }
  destruct (Body.status body) as [st|]; simpl; [now apply Hst|].
  left. reflexivity.
Qed.

Lemma applyUpdate_valid now body b :
  bodyValid false body -> schemaValid b -> schemaValid (applyUpdate now body b).
Proof.
  intros [Ht [Htl [Ha [Hal [Hd [Hy1 [Hy2 [Hr1 [Hr2 [_ [Hst _]]]]]]]]]]]
         [Vt [Vtl [Va [Val [Vd [Vy [Vr Vs]]]]]]].
  unfold schemaValid, applyUpdate. simpl.
  split; [destruct (Body.title body); simpl; [exact Ht|exact Vt]|].
  split; [destruct (Body.title body) as [t|]; simpl; [now apply Htl|exact Vtl]|].
  split; [destruct (Body.author body); simpl; [exact Ha|exact Va]|].
  split; [destruct (Body.author body) as [a|]; simpl; [now apply Hal|exact Val]|].
  split.
  { intros d Hd'. destruct (Body.description body) as [d0|].
    - injection Hd' as <-. now apply Hd.
    - now apply Vd. }
  split.
  { intros y Hy. destruct (Body.publishedYear body) as [y0|].
    - injection Hy as <-. split; [now apply Hy1|now apply Hy2].
    - now apply Vy. }
  split.
  { destruct (Body.rating body) as [r|]; simpl; [|exact Vr].
    split; [now apply Hr1|now apply Hr2]. }
  destruct (Body.status body) as [st|]; simpl; [now apply Hst|exact Vs].
Qed.

Lemma lent_valid b b' :
  sameCatalogue b b' -> In (status b') statusEnum ->
  schemaValid b -> schemaValid b'.
Proof.
  intros [_ [Et [Ea [Ed [_ [_ [_ [_ [_ [Ey [Er _]]]]]]]]]]] Hs.
  unfold schemaValid. rewrite Et, Ea, Ed, Ey, Er. tauto.
Qed.

Lemma forall_replaceDoc (P : Book -> Prop) doc s :
  P doc -> (forall d, In d s -> P d) ->
  forall d, In d (replaceDoc doc s) -> P d.
Proof.
  intros Hdoc Hs d Hd. destruct (In_replaceDoc _ _ _ Hd) as [->|Hin]; auto.
Qed.

(** X16.  Every record of every collection the API builds from the
    empty one, by any sequence of Create, Update, Delete, Borrow,
    Return, Renew, GetById and List requests whose Create and Update
    bodies name schema paths (no update operator) with values of their
    types, is within the bounds of the schema: a title of 1 to 200
    UTF-16 code units, an author of 1 to 100, a description of at most
    1000, a year (when there is one) between 1000 and the schema's
    maximum, a rating between 0 and 5, and a status of the enum. *)
Theorem served_records_are_valid s :
  Served s -> forall b, In b s -> schemaValid b.
Proof.
  induction 1 as [|s c Hs IH]; [intros b []|].
  destruct c as [[now body|now id body|now id body|now id|now id body]|id|id|query];
    cbn [serve handle].
  - destruct (success (fst (createBook now body s))) eqn:E.
    + destruct (createBook_success now body s E) as [[_ [_ Hv]] [_ E']].
      cbv zeta in E'. rewrite E'. cbn [snd].
      intros b Hb. apply in_app_or in Hb. destruct Hb as [Hb|[<-|[]]]; auto.
      apply newDocument_valid. now apply violations_create_nil.
    + now rewrite (createBook_failure now body s E).
  - destruct (updateBook_written now id body s)
      as [->|[oid [b0 [_ [Hl [Hv [_ ->]]]]]]]; [exact IH|].
    apply forall_replaceDoc; [|exact IH].
    apply applyUpdate_valid; [now apply violations_update_nil|].
    apply IH. now apply lookup_In with oid.
  - destruct (success (fst (borrowBook now id body s))) eqn:E.
    + destruct (borrowBook_success now id body s E)
        as [oid [b0 [uid [_ [Hl [_ E']]]]]].
      cbv zeta in E'. rewrite E'. cbn [snd].
      apply forall_replaceDoc; [|exact IH].
      apply lent_valid with b0.
      * unfold sameCatalogue. simpl. repeat split.
      * simpl. auto.
      * apply IH. now apply lookup_In with oid.
    + now rewrite (borrowBook_failure now id body s E).
  - destruct (success (fst (returnBook now id s))) eqn:E.
    + destruct (returnBook_success now id s E) as [oid [b0 [_ [Hl [_ E']]]]].
      cbv zeta in E'. rewrite E'. cbn [snd].
      apply forall_replaceDoc; [|exact IH].
      apply lent_valid with b0.
      * unfold sameCatalogue. simpl. repeat split.
      * simpl. auto.
      * apply IH. now apply lookup_In with oid.
    + now rewrite (returnBook_failure now id s E).
  - destruct (success (fst (renewBook now id body s))) eqn:E.
    + destruct (renewBook_success now id body s E)
        as [oid [b0 [due [_ [Hl [_ [_ E']]]]]]].
      cbv zeta in E'. rewrite E'. cbn [snd].
      apply forall_replaceDoc; [|exact IH].
      assert (schemaValid b0) as V by (apply IH; now apply lookup_In with oid).
      apply lent_valid with b0; [|simpl; apply V|exact V].
      unfold sameCatalogue. simpl. repeat split.
    + now rewrite (renewBook_failure now id body s E).
  - rewrite deleteBook_runs.
    destruct (castObjectId id) as [oid|]; [|exact IH].
    destruct (lookup oid s) as [b0|]; [|exact IH]. cbn [snd].
    intros d Hd. apply filter_In in Hd. now apply IH.
  - rewrite getBookById_runs.
    destruct (castObjectId id) as [oid|]; [|exact IH].
    destruct (lookup oid s); exact IH.
  - now rewrite getAllBooks_runs.
Qed.

Lemma same_id_same_record (s : Store) (d1 d2 : Book) :
  NoDup (map _id s) -> In d1 s -> In d2 s -> _id d1 = _id d2 -> d1 = d2.
Proof.
  induction s as [|x s IH]; simpl; [intros _ []|].
  intros Hnd [->|H1] [->|H2] E; trivial.
  - inversion Hnd as [|? ? Hnotin _]. subst. exfalso. apply Hnotin.
    rewrite E. now apply in_map.
  - inversion Hnd as [|? ? Hnotin _]. subst. exfalso. apply Hnotin.
    rewrite <- E. now apply in_map.
  - inversion Hnd. subst. now apply IH.
Qed.

Lemma NoDup_ids_filter (f : Book -> bool) (s : Store) :
  NoDup (map _id s) -> NoDup (map _id (filter f s)).
Proof.
  induction s as [|x s IH]; simpl; [trivial|].
  intros Hnd. inversion Hnd as [|? ? Hnotin Hrest]. subst.
  destruct (f x); simpl; [|now apply IH].
  constructor; [|now apply IH].
  intros Hin. apply Hnotin. apply in_map_iff in Hin.
  destruct Hin as [d [Hd Hin]]. apply filter_In in Hin.
  rewrite <- Hd. apply in_map. tauto.
Qed.

Lemma isbnApart_replaceDoc oid b doc s :
  lookup oid s = Some b -> _id doc = oid ->
  (isbn doc = isbn b
   \/ isbnTaken (isbn doc) (filter (fun d => negb (_id d =? oid)%N) s) = false) ->
  isbnApart s -> isbnApart (replaceDoc doc s).
Proof.
  intros Hl Hid Hisbn Hs.
  assert (forall d i, In d s -> _id d <> _id doc ->
            isbn doc = Some i -> isbn d = Some i -> False) as Hclash.
  { intros d i Hin Hne Hdoc Hd. destruct Hisbn as [Hsame|Hfree].
    - apply Hne. rewrite Hid, <- (lookup_id _ _ _ Hl).
      apply (Hs d b i); trivial; [now apply lookup_In with oid|congruence].
    - rewrite Hdoc in Hfree.
      rewrite (isbnTaken_In i d) in Hfree; [discriminate| |exact Hd].
      apply filter_In. split; [exact Hin|].
      destruct (N.eqb_spec (_id d) oid); [congruence|reflexivity]. }
  intros d1 d2 i H1 H2 I1 I2.
  destruct (In_replaceDoc_other _ _ _ H1) as [->|[H1' N1]];
    destruct (In_replaceDoc_other _ _ _ H2) as [->|[H2' N2]]; trivial.
  - exfalso. now apply (Hclash d2 i).
  - exfalso. now apply (Hclash d1 i).
  - now apply (Hs d1 d2 i).
Qed.

Lemma serve_keeps_unique c s :
  NoDup (map _id s) /\ isbnApart s ->
  NoDup (map _id (snd (serve c s))) /\ isbnApart (snd (serve c s)).
Proof.
  intros [Hnd Hs].
  destruct c as [[now body|now id body|now id body|now id|now id body]|id|id|query];
    cbn [serve handle].
  - destruct (success (fst (createBook now body s))) eqn:E.
    + destruct (createBook_success now body s E) as [_ [Hfree E']].
      cbv zeta in E'. rewrite E'. cbn [snd].
      set (doc := newDocument (newObjectId s) now body) in *. split.
      * rewrite map_app. simpl. apply NoDup_app.
        -- exact Hnd.
        -- repeat constructor. intros [].
        -- intros x Hx [Hx'|[]]. apply in_map_iff in Hx.
           destruct Hx as [d [Hd Hin]]. pose proof (newObjectId_above s d Hin).
           subst doc. simpl in Hx'. lia.
      * assert (forall d i, In d s -> isbn doc = Some i -> isbn d = Some i -> False)
          as Hclash.
        { intros d i Hin Hdoc Hd. subst doc. rewrite isbn_newDocument in Hdoc.
          rewrite Hdoc in Hfree. rewrite (isbnTaken_In i d s Hin Hd) in Hfree.
          discriminate. }
        intros d1 d2 i H1 H2 I1 I2.
        apply in_app_or in H1. apply in_app_or in H2.
        destruct H1 as [H1|[<-|[]]]; destruct H2 as [H2|[<-|[]]]; trivial.
        -- now apply (Hs d1 d2 i).
        -- exfalso. now apply (Hclash d1 i).
        -- exfalso. now apply (Hclash d2 i).
    + rewrite (createBook_failure now body s E). now split.
  - destruct (updateBook_written now id body s)
      as [->|[oid [b0 [_ [Hl [_ [Hi ->]]]]]]]; [now split|]. split.
    + now rewrite ids_replaceDoc.
    + apply (isbnApart_replaceDoc oid b0); trivial.
      * simpl. apply (lookup_id _ _ _ Hl).
      * destruct (Body.isbn body) as [i|] eqn:Hb.
        -- right. exact Hi.
        -- left. unfold applyUpdate. simpl. now rewrite Hb.
  - destruct (success (fst (borrowBook now id body s))) eqn:E.
    + destruct (borrowBook_success now id body s E)
        as [oid [b0 [uid [_ [Hl [_ E']]]]]].
      cbv zeta in E'. rewrite E'. cbn [snd]. split.
      * now rewrite ids_replaceDoc.
      * apply (isbnApart_replaceDoc oid b0); trivial;
          [apply (lookup_id _ _ _ Hl)|now left].
    + rewrite (borrowBook_failure now id body s E). now split.
  - destruct (success (fst (returnBook now id s))) eqn:E.
    + destruct (returnBook_success now id s E) as [oid [b0 [_ [Hl [_ E']]]]].
      cbv zeta in E'. rewrite E'. cbn [snd]. split.
      * now rewrite ids_replaceDoc.
      * apply (isbnApart_replaceDoc oid b0); trivial;
          [apply (lookup_id _ _ _ Hl)|now left].
    + rewrite (returnBook_failure now id s E). now split.
  - destruct (success (fst (renewBook now id body s))) eqn:E.
    + destruct (renewBook_success now id body s E)
        as [oid [b0 [due [_ [Hl [_ [_ E']]]]]]].
      cbv zeta in E'. rewrite E'. cbn [snd]. split.
      * now rewrite ids_replaceDoc.
      * apply (isbnApart_replaceDoc oid b0); trivial;
          [apply (lookup_id _ _ _ Hl)|now left].
    + rewrite (renewBook_failure now id body s E). now split.
  - rewrite deleteBook_runs.
    destruct (castObjectId id) as [oid|]; [|now split].
    destruct (lookup oid s); [|now split]. cbn [snd]. split.
    + now apply NoDup_ids_filter.
    + intros d1 d2 i H1 H2. apply filter_In in H1. apply filter_In in H2.
      apply (Hs d1 d2 i); tauto.
  - rewrite getBookById_runs.
    destruct (castObjectId id) as [oid|]; [|now split].
    destruct (lookup oid s); now split.
  - rewrite getAllBooks_runs. now split.
Qed.

(** X17.  In every collection the API builds from the empty one, no two
    records share an identifier and no two records share an ISBN:
    records with the same identifier, or with the same ISBN, are the
    same record.  Records without ISBN are as many as one likes. *)
Theorem served_isbn_is_unique s :
  Served s -> idsUnique s /\ isbnUnique s.
Proof.
  intros H.
  assert (NoDup (map _id s) /\ isbnApart s) as [Hnd Hs].
  { induction H as [|s c Hs IH].
    - split; [constructor|]. intros d1 d2 i [].
    - now apply serve_keeps_unique. }
  split; [exact Hnd|].
  intros d1 d2 i H1 H2 I1 I2.
  apply (same_id_same_record s); trivial. now apply (Hs d1 d2 i).
Qed.

(** ** The pages of the admin listing *)

Lemma chunks_concat {A} (L n : nat) (l : list A) :
  (List.length l <= n * L)%nat ->
  List.concat (map (fun k => firstn L (skipn (k * L) l)) (seq 0 n)) = l.
Proof.
  revert l. induction n as [|n IH]; intros l Hlen.
  - destruct l; [reflexivity|simpl in Hlen; lia].
  - cbn [seq map List.concat]. rewrite <- seq_shift, map_map.
    rewrite (map_ext _ (fun k => firstn L (skipn (k * L) (skipn L l)))).
    + rewrite IH; [apply firstn_skipn|].
      rewrite length_skipn. lia.
    + intros k. rewrite skipn_skipn. f_equal. f_equal. lia.
Qed.

Lemma ceilDiv_bounds (a b : nat) :
  (1 <= b)%nat ->
  (a <= ceilDiv a b * b)%nat /\ (1 <= a -> (ceilDiv a b - 1) * b < a)%nat.
Proof.
  intros Hb. unfold ceilDiv.
  pose proof (Nat.div_mod_eq (a + b - 1) b) as E.
  pose proof (Nat.mod_upper_bound (a + b - 1) b) as U.
  assert (b <> 0)%nat as Hb0 by lia. specialize (U Hb0).
  split; [nia|]. intros Ha. nia.
Qed.

Lemma searchFilter_matches q b :
  matches (searchFilter q) b
  = match q with
    | Some v => if (trim v =? "")%string then true else textMatch (trim v) b
    | None => true
    end.
Proof.
  unfold searchFilter, matches, truthy, falsy. destruct q as [v|]; [|reflexivity].
  simpl default.
  destruct (String.eqb_spec v "") as [->|Hv]; [reflexivity|].
  simpl negb at 1. cbn [andb].
  destruct (trim v =? "")%string; simpl; [reflexivity|].
  now rewrite !Bool.andb_true_r.
Qed.

(** X18.  The pages of the admin listing partition the listing: for any
    search and any page size, the books of pages 1 to [totalPages], one
    after the other, are exactly the matching records newest first,
    none lost and none twice, and [totalBooks] is their number.  A blank
    or absent search matches every record. *)
Theorem pages_partition_the_listing q limit s :
  let found := sortNewestFirst (filter (matches (searchFilter q)) s) in
  List.concat (map (fun p => books (fst (listBooks q (Some (Pos.of_nat p)) limit s)))
            (seq 1 (totalPages (fst (listBooks q None limit s)))))
  = found
  /\ totalBooks (fst (listBooks q None limit s)) = List.length found
  /\ Permutation found (filter (matches (searchFilter q)) s)
  /\ StronglySorted newestFirst found
  /\ (forall b, matches (searchFilter q) b
                = match q with
                  | Some v =>
                      if (trim v =? "")%string then true else textMatch (trim v) b
                  | None => true
                  end).
Proof.
  intros found.
  assert (Permutation found (filter (matches (searchFilter q)) s)) as P
    by (symmetry; apply sortNewestFirst_perm).
  split; [|split; [|split; [exact P|split;
    [apply sortNewestFirst_sorted|intros b; apply searchFilter_matches]]]].
  - set (L := Pos.to_nat (default 20%positive limit)).
    assert (1 <= L)%nat as HL by (subst L; lia).
    cbn [listBooks fst totalPages books].
    fold found. fold L.
    rewrite <- seq_shift, map_map.
    rewrite (map_ext _ (fun k => firstn L (skipn (k * L) found))).
    + apply chunks_concat. rewrite (Permutation_length P).
      apply (ceilDiv_bounds _ L HL).
    + intros k. cbn [default]. rewrite Nat2Pos.id by lia.
      f_equal. f_equal. lia.
  - cbn [listBooks fst totalBooks]. symmetry. apply (Permutation_length P).
Qed.

(** X19.  A page of the admin listing holds at most [limit] books; a
    page before the last holds exactly [limit]; a page after the last
    holds none.  [totalPages] is the least number of pages of that size
    that hold [totalBooks] books, and it is 0 for an empty listing.  The
    listing never writes. *)
Theorem page_sizes q page limit s :
  let view := fst (listBooks q page limit s) in
  let size := Pos.to_nat (default 20%positive limit) in
  (List.length (books view) <= size)%nat
  /\ (currentPage view < totalPages view ->
      List.length (books view) = size)%nat
  /\ (totalPages view < currentPage view -> books view = [])%nat
  /\ (totalBooks view <= totalPages view * size)%nat
  /\ (1 <= totalBooks view -> (totalPages view - 1) * size < totalBooks view)%nat
  /\ (totalBooks view = 0 -> totalPages view = 0)%nat
  /\ snd (listBooks q page limit s) = s.
Proof.
  intros view size. subst view.
  cbn [listBooks fst snd books currentPage totalPages totalBooks].
  fold size.
  set (found := sortNewestFirst (filter (matches (searchFilter q)) s)).
  set (total := List.length (filter (matches (searchFilter q)) s)).
  set (P := Pos.to_nat (default 1%positive page)).
  assert (List.length found = total) as Hlen.
  { subst found total. symmetry. apply Permutation_length, sortNewestFirst_perm. }
  assert (1 <= size)%nat as HL by (subst size; lia).
  assert (1 <= P)%nat as HP by (subst P; lia).
  destruct (ceilDiv_bounds total size HL) as [Hup Hlow].
  split; [rewrite length_firstn; lia|].
  split.
  { intros Hlt. rewrite length_firstn, length_skipn, Hlen.
    assert (P * size <= (ceilDiv total size - 1) * size)%nat by nia.
    assert (1 <= total)%nat.
    { destruct total; [|lia]. unfold ceilDiv in Hlt.
      rewrite Nat.div_small in Hlt; lia. }
    specialize (Hlow H0). nia. }
  split.
  { intros Hgt. rewrite skipn_all2; [now destruct size|].
    rewrite Hlen. nia. }
  split; [exact Hup|]. split; [exact Hlow|]. split; [|reflexivity].
  intros ->. unfold ceilDiv. apply Nat.div_small. lia.
Qed.

(** ** The catalogue page *)

Lemma filter_length_perm {A} (f : A -> bool) (l l' : list A) :
  Permutation l l' -> List.length (filter f l) = List.length (filter f l').
Proof.
  induction 1 as [|x l l' _ IH|x y l|l l' l'' _ IH1 _ IH2]; simpl.
  - reflexivity.
  - destruct (f x); simpl; now rewrite IH.
  - destruct (f x), (f y); reflexivity.
  - now rewrite IH1.
Qed.

Lemma filter_map_length {A B} (g : A -> B) (f : B -> bool) (l : list A) :
  List.length (filter f (map g l)) = List.length (filter (fun a => f (g a)) l).
Proof.
  induction l as [|a l IH]; simpl; [reflexivity|].
  destruct (f (g a)); simpl; now rewrite IH.
Qed.

Lemma loadBooksFromAPI_runs s :
  loadBooksFromAPI s = map toClientBook (sortNewestFirst s).
Proof.
  unfold loadBooksFromAPI. rewrite getAllBooks_runs. simpl.
  f_equal. f_equal.
  unfold buildQuery, matches. simpl.
  induction s as [|d s IH]; simpl; [reflexivity|]. now rewrite IH.
Qed.

Lemma card_status (b : Book) :
  status b <> "" -> c_status (toClientBook b) = status b.
Proof.
  intros H. unfold toClientBook, orElse. simpl.
  apply String.eqb_neq in H. now rewrite H.
Qed.

(** X20.  The catalogue page shows one card for each record of the
    collection.  When no record has an empty status (none has, under
    the schema's enum), the page's count of available books is the
    number of records whose status is 'Available'; and when, moreover,
    [available] and [status] agree on every record, it is the count
    that List answers for [available=true]. *)
Theorem page_counts_follow_status s :
  getTotalBooks (loadBooksFromAPI s) = List.length s
  /\ ((forall b, In b s -> status b <> "") ->
      getAvailableCount (loadBooksFromAPI s)
      = List.length (filter (fun b => (status b =? "Available")%string) s))
  /\ ((forall b, In b s ->
         status b <> "" /\ (available b = true <-> status b = "Available")) ->
      count (fst (getAllBooks (Query.mk None None None (Some "true") None) s))
      = Some (getAvailableCount (loadBooksFromAPI s))).
Proof.
  assert (Permutation (sortNewestFirst s) s) as P
    by (symmetry; apply sortNewestFirst_perm).
  assert ((forall b, In b s -> status b <> "") ->
          getAvailableCount (loadBooksFromAPI s)
          = List.length (filter (fun b => (status b =? "Available")%string) s))
    as Hcount.
  { intros Hs. unfold getAvailableCount. rewrite loadBooksFromAPI_runs.
    rewrite filter_map_length, (filter_length_perm _ _ _ P).
    f_equal. apply filter_ext_in. intros b Hb.
    unfold isAvailable. now rewrite card_status by now apply Hs. }
  split; [|split; [exact Hcount|]].
  - unfold getTotalBooks. rewrite loadBooksFromAPI_runs, length_map.
    apply (Permutation_length P).
  - intros Hs. rewrite Hcount by (intros b Hb; now apply Hs).
    rewrite getAllBooks_runs. cbn [fst count]. f_equal.
    rewrite <- (Permutation_length (sortNewestFirst_perm _)).
    f_equal. apply filter_ext_in. intros b Hb.
    destruct (Hs b Hb) as [_ [H1 H2]].
    unfold matches, buildQuery. simpl.
    destruct (available b) eqn:Hav; simpl.
    + symmetry. apply String.eqb_eq. now apply H1.
    + symmetry. apply String.eqb_neq. intros E. apply H2 in E. discriminate.
Qed.

(** X21.  A card shows the status the record carries, whatever its
    [available] flag says, and falls back on the flag only for a record
    with an empty status.  So the book a successful Borrow stores is
    shown as not available, with the class 'checked-out', and the book a
    successful Return stores as available, with the class
    'available'. *)
Theorem cards_show_the_status :
  (forall b,
      status b <> "" ->
      c_status (toClientBook b) = status b
      /\ isAvailable (toClientBook b) = (status b =? "Available")%string)
  /\ (forall b,
        status b = "" -> isAvailable (toClientBook b) = available b)
  /\ (forall now id body s,
        success (fst (borrowBook now id body s)) = true ->
        exists b',
          fst (borrowBook now id body s)
            = ok 200 (Doc b') (Some "Book borrowed successfully")
          /\ isAvailable (toClientBook b') = false
          /\ getStatusClass (toClientBook b') = "checked-out")
  /\ (forall now id s,
        success (fst (returnBook now id s)) = true ->
        exists b',
          fst (returnBook now id s)
            = ok 200 (Doc b') (Some "Book returned successfully")
          /\ isAvailable (toClientBook b') = true
          /\ getStatusClass (toClientBook b') = "available").
Proof.
  split; [|split; [|split]].
  - intros b H. unfold isAvailable. now rewrite card_status.
  - intros b H. unfold isAvailable, toClientBook, orElse. simpl. rewrite H. simpl.
    now destruct (available b).
  - intros now id body s H.
    destruct (borrowBook_success now id body s H)
      as [oid [b [uid [_ [_ [_ E]]]]]].
    cbv zeta in E. rewrite E. eexists. split; [reflexivity|]. split; reflexivity.
  - intros now id s H.
    destruct (returnBook_success now id s H) as [oid [b [_ [_ [_ E]]]]].
    cbv zeta in E. rewrite E. eexists. split; [reflexivity|]. split; reflexivity.
Qed.

(** ** Create: what is refused, and in which order *)

(** X22.  A Create without a title or without an author (absent or
    empty) answers 400 'Please provide title and author'.  Otherwise a
    body with a value that does not cast or that violates a validator
    answers 400 with the messages of the values that do not cast
    followed by those of the violated validators in schema order, also
    when its ISBN is already held, so that the validators are heard
    before the unique index; in particular a title of white space only
    (any white space [String.prototype.trim] removes) passes the first
    test and is refused with 'Book title is required', which comes right
    after the messages of the values that do not cast.  None of these
    adds a record. *)
Theorem create_refusals now body s :
  (falsy (Body.title body) || falsy (Body.author body) = true ->
   createBook now body s = (MissingTitleOrAuthor, s))
  /\ (falsy (Body.title body) || falsy (Body.author body) = false ->
      violations true body <> [] ->
      createBook now body s = (fail 400 (Messages (violations true body)), s))
  /\ (forall t,
        Body.title body = Some t -> t <> "" -> trim t = "" ->
        falsy (Body.author body) = false ->
        exists vs,
          createBook now body s
            = (fail 400
                 (Messages
                    (castFailures body ++ Message "Book title is required" :: vs)),
               s)).
Proof.
  assert (falsy (Body.title body) || falsy (Body.author body) = false ->
          violations true body <> [] ->
          createBook now body s = (fail 400 (Messages (violations true body)), s))
    as Hv.
  { intros H0 Hne. unfold createBook, tryCatch, bind, ret, Book_create.
    rewrite H0. destruct (violations true body); [contradiction|reflexivity]. }
  split; [|split; [exact Hv|]].
  - intros H0. unfold createBook, tryCatch, bind, ret. now rewrite H0.
  - intros t Ht Hne Hblank Ha.
    assert (exists vs, violations true body
                       = castFailures body ++ Message "Book title is required" :: vs)
      as [vs Hvs].
    { unfold violations, validatorFailures, checkRequired at 1.
      rewrite Ht, Hblank. simpl. eexists. reflexivity. }
    exists vs. rewrite <- Hvs. apply Hv.
    + rewrite Ht, Ha. simpl. apply String.eqb_neq in Hne. now rewrite Hne.
    + rewrite Hvs. intros H. apply app_eq_nil in H. destruct H as [_ H].
      discriminate H.
Qed.

(** ** A whole loan *)

End Catalogue.

(** * The properties on sample data *)



(** C10 on sample data: a book that allows no renewal and is not lent is
    refused for the cap, not for being on the shelf; the NotBorrowed reply
    for the sample shelf comes from a book below its cap. *)
Lemma renew_checks_cap_first_witness :
  (renewBook 200 firstId noWeeks (snd (createBook 2027 0 orwellNoRenewals []))
     = (RenewalLimitExceeded, snd (createBook 2027 0 orwellNoRenewals []))
   /\ RenewalLimitExceeded <> NotBorrowed)
  /\ exists oid b,
       castObjectId firstId = Some oid /\ lookup oid (shelf 2027) = Some b
       /\ dueDate b = None /\ (renewalCount b < maxRenewals b)%N.
Proof.
  split.
  - eapply (proj1 (renew_checks_cap_first 200 firstId noWeeks
                     (snd (createBook 2027 0 orwellNoRenewals [])))).
    + vm_compute. reflexivity.
    + vm_compute. reflexivity.
    + reflexivity.
    + vm_compute. discriminate.
  - apply (proj2 (renew_checks_cap_first 200 firstId noWeeks (shelf 2027))).
    vm_compute. reflexivity.
Defined.




(** C5.  POST /api/books/not-an-id/borrow with the three borrower
    fields, on the sample shelf: the identifier resolves to no record,
    and Borrow answers 500 with the message of the cast error instead
    of NotFound (404 'Book not found'), the reply that GetById, Update
    and Delete give the same identifier.  The collection is left as it
    was. *)
Theorem borrow_of_no_identifier_answers_500 :
  castObjectId notAnId = None
  /\ borrowBook 150 notAnId reader (shelf 2027)
     = (fail 500 (MessageOf (CastError "_id" notAnId)), shelf 2027)
  /\ code (fst (borrowBook 150 notAnId reader (shelf 2027))) = 500
  /\ fst (borrowBook 150 notAnId reader (shelf 2027)) <> NotFound
  /\ getBookById notAnId (shelf 2027) = (NotFound, shelf 2027)
  /\ updateBook 2027 150 notAnId retitled (shelf 2027) = (NotFound, shelf 2027)
  /\ deleteBook notAnId (shelf 2027) = (NotFound, shelf 2027).
Proof.
  split; [reflexivity|].
  split; [vm_compute; reflexivity|].
  split; [reflexivity|].
  split; [vm_compute; discriminate|].
  split; [vm_compute; reflexivity|].
  split; vm_compute; reflexivity.
Qed.

(** X24 on the sample shelf. *)
Lemma borrow_failures_change_nothing_witness :
  borrowBook 150 firstId reader (lentShelf 2027) = (NotAvailable, lentShelf 2027)
  /\ borrowBook 150 secondId reader (shelf 2027) = (NotFound, shelf 2027)
  /\ borrowBook 150 firstId anonymous (shelf 2027) = (InvalidInput, shelf 2027)
  /\ snd (borrowBook 150 firstId readerFromReadme (shelf 2027)) = shelf 2027.
Proof.
  split; [|split; [|split]].
  - eapply (proj1 (borrow_failures_change_nothing 150 firstId reader (lentShelf 2027))).
    + reflexivity.
    + vm_compute. reflexivity.
    + vm_compute. reflexivity.
    + reflexivity.
  - eapply (proj1 (proj2 (borrow_failures_change_nothing 150 secondId reader (shelf 2027)))).
    + reflexivity.
    + vm_compute. reflexivity.
    + vm_compute. reflexivity.
  - apply (proj1 (proj2 (proj2 (borrow_failures_change_nothing 150 firstId anonymous (shelf 2027))))).
    reflexivity.
  - apply (proj2 (proj2 (proj2 (borrow_failures_change_nothing 150 firstId readerFromReadme (shelf 2027))))).
    vm_compute. reflexivity.
Defined.

(** C1 as stated fails.  A Create that names [available: false] stores a
    record with [available = false] and [status = 'Available']; a Create
    that names a [dueDate] stores an available record with a due date,
    and a Renew of that record succeeds and leaves it so. *)
Lemma encodings_agree_counterexample :
  (exists b,
      createBook 2027 0 orwellUnavailable [] = (ok 201 (Doc b) None, [b])
      /\ ~ encodingsAgree b)
  /\ (exists b b',
        createBook 2027 0 orwellDue [] = (ok 201 (Doc b) None, [b])
        /\ renewBook 50 firstId noWeeks [b]
             = (ok 200 (Doc b') (Some "Book renewed successfully"), [b'])
        /\ ~ encodingsAgree b').
Proof.
  split.
  - eexists. split; [vm_compute; reflexivity|].
    intros [[_ A] _]. specialize (A eq_refl). discriminate A.
  - eexists _, _. split; [vm_compute; reflexivity|].
    split; [vm_compute; reflexivity|].
    intros [_ [A _]]. destruct (A eq_refl) as [_ [_ D]]. discriminate D.
Qed.

(** C1, amended, on sample data: the lent, the renewed and the returned
    sample book, and the book as created, have their encodings in
    agreement. *)
Lemma encodings_agree_after_transitions_witness :
  (exists b', lookup 1%N (lentShelf 2027) = Some b' /\ encodingsAgree b')
  /\ (exists b',
        lookup 1%N (snd (returnBook 500 firstId (lentShelf 2027))) = Some b'
        /\ encodingsAgree b')
  /\ (exists b', lookup 1%N (renewedOnce 2027) = Some b' /\ encodingsAgree b')
  /\ (exists b, shelf 2027 = [b] /\ encodingsAgree b).
Proof.
  pose proof (encodings_agree_after_transitions 2027) as [HB [HR [HN HC]]].
  split; [|split; [|split]].
  - destruct (HB 100 firstId reader (shelf 2027) eq_refl)
      as [oid [b' [Hc [_ [Hl Ha]]]]].
    exists b'. split; [|exact Ha].
    vm_compute in Hc. injection Hc as <-. exact Hl.
  - destruct (HR 500 firstId (lentShelf 2027) eq_refl)
      as [oid [b' [Hc [_ [Hl Ha]]]]].
    exists b'. split; [|exact Ha].
    vm_compute in Hc. injection Hc as <-. exact Hl.
  - destruct (HB 100 firstId reader (shelf 2027) eq_refl)
      as [oid0 [b0 [Hc0 [_ [Hl0 Ha0]]]]].
    destruct (HN 200 firstId noWeeks (lentShelf 2027) eq_refl)
      as [oid [b [b' [Hc [Hl [_ [Hl' Ha]]]]]]].
    exists b'. vm_compute in Hc. injection Hc as <-.
    vm_compute in Hc0. injection Hc0 as <-.
    split; [exact Hl'|]. apply Ha.
    unfold lentShelf in Hl. rewrite Hl0 in Hl. injection Hl as <-. exact Ha0.
  - destruct (HC 0 orwell [] eq_refl) as [b [E Ha]].
    exists b. split.
    + unfold shelf. now rewrite E.
    + apply Ha. repeat split.
Defined.

(** C4 as stated fails.  After Borrow and Return the sample book differs
    from what it was in [updatedAt]; and an available book created with
    [status: 'Reserved'] comes back with [status = 'Available']. *)
Lemma return_restores_counterexample :
  (exists b b2,
      lookup 1%N (shelf 2027) = Some b /\ available b = true
      /\ lookup 1%N (snd (returnBook 500 firstId (lentShelf 2027))) = Some b2
      /\ b2 <> set_renewalCount 0%N b)
  /\ (exists b b2,
        lookup 1%N (snd (createBook 2027 0 orwellReserved [])) = Some b
        /\ available b = true
        /\ lookup 1%N
             (snd (returnBook 500 firstId
                     (snd (borrowBook 100 firstId reader
                             (snd (createBook 2027 0 orwellReserved []))))))
           = Some b2
        /\ status b = "Reserved" /\ status b2 = "Available"
        /\ b2 <> set_renewalCount 0%N b).
Proof.
  split.
  - eexists _, _. split; [vm_compute; reflexivity|].
    split; [reflexivity|]. split; [vm_compute; reflexivity|].
    intros E. apply (f_equal updatedAt) in E. discriminate E.
  - eexists _, _. split; [vm_compute; reflexivity|].
    split; [reflexivity|]. split; [vm_compute; reflexivity|].
    split; [reflexivity|]. split; [reflexivity|].
    intros E. apply (f_equal status) in E. discriminate E.
Qed.

(** C4, amended, on the sample shelf: the lent book is returned with its
    loan fields cleared, and the book that went out and came back is the
    book as created but for [updatedAt]. *)
Lemma return_restores_witness :
  (exists b',
      returnBook 500 firstId (lentShelf 2027)
        = (ok 200 (Doc b') (Some "Book returned successfully"),
           replaceDoc b' (lentShelf 2027))
      /\ available b' = true /\ status b' = "Available"
      /\ borrowedBy b' = noBorrower /\ dueDate b' = None
      /\ renewalCount b' = 0%N)
  /\ (exists b,
        shelf 2027 = [b]
        /\ snd (returnBook 500 firstId (lentShelf 2027))
           = [set_updatedAt 500 (set_renewalCount 0%N b)]).
Proof.
  pose proof return_restores as [HR HBR].
  split.
  - edestruct (HR 500 firstId (lentShelf 2027))
      as [b' [H1 [_ [H3 [H4 [H5 [_ [_ [H8 H9]]]]]]]]].
    + vm_compute. reflexivity.
    + vm_compute. reflexivity.
    + reflexivity.
    + exists b'. repeat (split; [assumption|]). exact H9.
  - eexists. split; [vm_compute; reflexivity|].
    edestruct (HBR 100 500 firstId reader (shelf 2027)) as [E _].
    + vm_compute. reflexivity.
    + vm_compute. reflexivity.
    + reflexivity.
    + reflexivity.
    + repeat split.
    + reflexivity.
    + reflexivity.
    + unfold lentShelf. rewrite E. vm_compute. reflexivity.
Defined.

(** C6 as stated fails: a Create that names the three paths stores what
    it names. *)
Lemma create_starts_from_defaults_counterexample :
  exists b,
    createBook 2027 0 orwellWorn [] = (ok 201 (Doc b) None, [b])
    /\ available b = false /\ status b = "Borrowed" /\ renewalCount b = 5%N.
Proof.
  eexists. split; [vm_compute; reflexivity|]. repeat split.
Qed.

(** C6, amended, on sample data. *)
Lemma create_starts_from_defaults_witness :
  exists b,
    createBook 2027 0 orwell [] = (ok 201 (Doc b) None, [] ++ [b])
    /\ available b = true /\ status b = "Available" /\ renewalCount b = 0%N.
Proof.
  destruct (create_starts_from_defaults 2027 0 orwell [] eq_refl)
    as [b [E [H1 [H2 [H3 _]]]]].
  exists b. split; [exact E|].
  split; [apply H1; reflexivity|]. split; [apply H2; reflexivity|].
  apply H3. reflexivity.
Defined.

(** C7 as stated fails.  A Create that names [renewalCount: 5] stores a
    record above its cap of 2; and an Update that lowers [maxRenewals] to
    1 leaves the twice-renewed sample book above its cap. *)
Lemma renewal_cap_counterexample :
  (exists b,
      Reachable 2027 (wornShelf 2027) /\ In b (wornShelf 2027)
      /\ renewalCount b = 5%N /\ maxRenewals b = 2%N
      /\ ~ (renewalCount b <= maxRenewals b)%N)
  /\ (exists b,
        Reachable 2027 (capLowered 2027) /\ In b (capLowered 2027)
        /\ renewalCount b = 2%N /\ maxRenewals b = 1%N
        /\ ~ (renewalCount b <= maxRenewals b)%N).
Proof.
  split.
  - eexists. split; [|split; [|split; [|split]]].
    + apply reach_step; [apply reach_empty|exact I].
    + vm_compute. left. reflexivity.
    + reflexivity.
    + reflexivity.
    + vm_compute. intros H. now apply H.
  - eexists. split; [|split; [|split; [|split]]].
    + unfold capLowered, twiceRenewed.
      repeat (apply reach_step; [|exact I]). apply reach_empty.
    + vm_compute. left. reflexivity.
    + reflexivity.
    + reflexivity.
    + vm_compute. intros H. now apply H.
Qed.

(** C7, amended, on sample data: the twice-renewed sample book is
    reachable by requests that leave the counters alone, and is at its
    cap, not above it. *)
Lemma renewal_cap_holds_witness :
  exists b,
    ReachableBy 2027 leavesCounters (twiceRenewed 2027)
    /\ In b (twiceRenewed 2027)
    /\ renewalCount b = 2%N
    /\ (renewalCount b <= maxRenewals b)%N.
Proof.
  assert (ReachableBy 2027 leavesCounters (twiceRenewed 2027)) as R.
  { unfold twiceRenewed.
    apply reach_step; [|exact I].
    apply reach_step; [|exact I].
    apply reach_step; [|exact I].
    apply reach_step; [apply reach_empty|split; reflexivity]. }
  eexists. split; [exact R|].
  split; [vm_compute; left; reflexivity|].
  split; [reflexivity|].
  apply (renewal_cap_holds 2027 (twiceRenewed 2027) R).
  vm_compute. left. reflexivity.
Defined.

Lemma gatsby_acceptable : acceptable 2027 gatsby.
Proof. repeat split. Defined.

Lemma gatsbyAgain_acceptable : acceptable 2027 gatsbyAgain.
Proof. repeat split. Defined.

Lemma orwell_acceptable : acceptable 2027 orwell.
Proof. repeat split. Defined.

Lemma mockingbird_acceptable : acceptable 2027 mockingbird.
Proof. repeat split. Defined.

(** C9 on sample data: the second Gatsby is refused, also after the
    first was created by a request; Orwell and Lee, without ISBN, are
    both stored. *)
Lemma isbn_is_unique_when_present_witness :
  (exists d,
      snd (createBook 2027 0 gatsby []) = [d]
      /\ createBook 2027 10 gatsbyAgain [d] = (DuplicateISBN, [d]))
  /\ createBook 2027 10 gatsbyAgain (snd (createBook 2027 0 gatsby []))
       = (DuplicateISBN, snd (createBook 2027 0 gatsby []))
  /\ (exists b1 b2,
        createBook 2027 0 orwell [] = (ok 201 (Doc b1) None, [] ++ [b1])
        /\ createBook 2027 10 mockingbird ([] ++ [b1])
             = (ok 201 (Doc b2) None, ([] ++ [b1]) ++ [b2])
        /\ isbn b1 = None /\ isbn b2 = None).
Proof.
  pose proof (isbn_is_unique_when_present 2027) as [H1 [H2 H3]].
  split; [|split].
  - eexists. split; [vm_compute; reflexivity|].
    eapply (H1 10 gatsbyAgain _ _ "978-0-7432-7356-5").
    + left. reflexivity.
    + vm_compute. reflexivity.
    + discriminate.
    + reflexivity.
    + exact gatsbyAgain_acceptable.
  - apply (H2 0 10 gatsby gatsbyAgain [] "978-0-7432-7356-5").
    + discriminate.
    + reflexivity.
    + reflexivity.
    + reflexivity.
    + exact gatsbyAgain_acceptable.
  - apply (H3 0 10 orwell mockingbird []).
    + reflexivity.
    + reflexivity.
    + exact orwell_acceptable.
    + exact mockingbird_acceptable.
Defined.



(** * The further properties on sample data *)

(** X1 on the sample shelf. *)
Lemma malformed_id_replies_witness :
  getBookById notAnId (shelf 2027) = (NotFound, shelf 2027)
  /\ updateBook 2027 5 notAnId retitled (shelf 2027) = (NotFound, shelf 2027)
  /\ deleteBook notAnId (shelf 2027) = (NotFound, shelf 2027)
  /\ returnBook 5 notAnId (shelf 2027)
     = (fail 500 (MessageOf (CastError "_id" notAnId)), shelf 2027)
  /\ renewBook 5 notAnId noWeeks (shelf 2027)
     = (fail 400 (MessageOf (CastError "_id" notAnId)), shelf 2027)
  /\ borrowBook 5 notAnId reader (shelf 2027)
     = (fail 500 (MessageOf (CastError "_id" notAnId)), shelf 2027).
Proof.
  destruct (malformed_id_replies 2027 5 notAnId retitled reader noWeeks
              (shelf 2027) eq_refl) as [H1 [H2 [H3 [H4 [H5 [H6 _]]]]]].
  repeat (split; [assumption|]). apply H6. reflexivity.
Defined.

(** X2 on the sample shelf: Lee's book gets the second identifier. *)
Lemma create_then_get_witness :
  exists b,
    createBook 2027 10 mockingbird (shelf 2027)
      = (ok 201 (Doc b) None, shelf 2027 ++ [b])
    /\ lookup (_id b) (shelf 2027) = None
    /\ lookup (_id b) (shelf 2027 ++ [b]) = Some b
    /\ _id b = 2%N.
Proof.
  destruct (create_then_get 2027 10 mockingbird (shelf 2027) eq_refl)
    as [b [E [F [L _]]]].
  exists b. split; [exact E|]. split; [exact F|]. split; [exact L|].
  apply (f_equal fst) in E. vm_compute in E. inversion E. reflexivity.
Defined.

(** X3 on the three sample books: Orwell goes, the others stay. *)
Lemma delete_removes_one_witness :
  (exists s',
      deleteBook secondId (threeBooks 2027)
        = (ok 200 EmptyObject (Some "Book deleted successfully"), s')
      /\ getBookById secondId s' = (NotFound, s')
      /\ lookup 1%N s' = lookup 1%N (threeBooks 2027)
      /\ lookup 3%N s' = lookup 3%N (threeBooks 2027))
  /\ deleteBook secondId (shelf 2027) = (NotFound, shelf 2027).
Proof.
  destruct (delete_removes_one secondId (threeBooks 2027)) as [H _].
  destruct (delete_removes_one secondId (shelf 2027)) as [_ H'].
  split.
  - edestruct (H 2%N) as [s' [E [_ [_ [G [_ K]]]]]].
    + reflexivity.
    + vm_compute. reflexivity.
    + exists s'. split; [exact E|]. split; [exact G|].
      split; apply K; discriminate.
  - apply (H' 2%N); reflexivity.
Defined.

(** X4 on the sample shelf: the new title is stored trimmed. *)
Lemma update_merges_witness :
  exists doc,
    updateBook 2027 50 firstId retitled (shelf 2027)
      = (ok 200 (Doc doc) None, replaceDoc doc (shelf 2027))
    /\ getBookById firstId (replaceDoc doc (shelf 2027))
       = (ok 200 (Doc doc) None, replaceDoc doc (shelf 2027))
    /\ createdAt doc = 0 /\ updatedAt doc = 50
    /\ title doc = "Nineteen Eighty-Four".
Proof.
  edestruct (update_merges 2027 50 firstId retitled (shelf 2027))
    as [doc [E [_ [G [_ [C [U [_ [T _]]]]]]]]].
  - reflexivity.
  - vm_compute. reflexivity.
  - reflexivity.
  - reflexivity.
  - intros i d Hi. discriminate Hi.
  - exists doc. split; [exact E|]. split; [exact G|].
    split; [rewrite C; reflexivity|]. split; [exact U|].
    rewrite T. reflexivity.
Defined.


(** X6 on the sample shelf. *)
Lemma return_refusals_witness :
  returnBook 150 firstId (shelf 2027) = (NotCurrentlyBorrowed, shelf 2027)
  /\ returnBook 150 secondId (shelf 2027) = (NotFound, shelf 2027)
  /\ snd (returnBook 150 notAnId (lentShelf 2027)) = lentShelf 2027.
Proof.
  destruct (return_refusals 150 firstId (shelf 2027)) as [H1 _].
  destruct (return_refusals 150 secondId (shelf 2027)) as [_ [H2 _]].
  destruct (return_refusals 150 notAnId (lentShelf 2027)) as [_ [_ H3]].
  split; [|split].
  - eapply (H1 1%N); [reflexivity|vm_compute; reflexivity|reflexivity].
  - apply (H2 2%N); reflexivity.
  - apply H3. reflexivity.
Defined.

(** X7 on the sample shelf. *)
Lemma repeated_transitions_refused_witness :
  borrowBook 150 firstId reader (lentShelf 2027) = (NotAvailable, lentShelf 2027)
  /\ returnBook 600 firstId (snd (returnBook 500 firstId (lentShelf 2027)))
     = (NotCurrentlyBorrowed, snd (returnBook 500 firstId (lentShelf 2027)))
  /\ snd (renewBook 600 firstId noWeeks (snd (returnBook 500 firstId (lentShelf 2027))))
     = snd (returnBook 500 firstId (lentShelf 2027)).
Proof.
  destruct repeated_transitions_refused as [H1 [H2 H3]].
  split; [|split].
  - apply (H1 100 150 firstId reader reader (shelf 2027)); reflexivity.
  - apply (H2 500 600 firstId (lentShelf 2027)). reflexivity.
  - apply (H3 500 600 firstId noWeeks (lentShelf 2027)). reflexivity.
Defined.

(** X8 on the three sample books: lending Orwell leaves Gatsby and Lee
    alone. *)
Lemma lending_touches_one_record_witness :
  map _id (lentThree 2027) = map _id (threeBooks 2027)
  /\ lookup 1%N (lentThree 2027) = lookup 1%N (threeBooks 2027)
  /\ lookup 3%N (lentThree 2027) = lookup 3%N (threeBooks 2027).
Proof.
  destruct (lending_touches_one_record 2027 (Borrow 100 secondId reader) secondId 2%N
              (threeBooks 2027) eq_refl eq_refl) as [H1 [H2 _]].
  split; [exact H1|]. split; apply H2; discriminate.
Defined.




(** X12 on sample data. *)
Lemma shelves_follow_transitions_witness :
  (exists b',
      In b' (resolved (Book_findBorrowed anyText) (lentShelf 2027))
      /\ ~ In b' (resolved (Book_findAvailable anyText) (lentShelf 2027)))
  /\ (exists b',
        In b' (resolved (Book_findAvailable anyText)
                 (snd (returnBook 500 firstId (lentShelf 2027))))
        /\ ~ In b' (resolved (Book_findBorrowed anyText)
                      (snd (returnBook 500 firstId (lentShelf 2027)))))
  /\ (exists b,
        In b (snd (createBook 2027 0 orwellUnavailable []))
        /\ ~ In b (resolved (Book_findAvailable anyText)
                     (snd (createBook 2027 0 orwellUnavailable [])))
        /\ ~ In b (resolved (Book_findBorrowed anyText)
                     (snd (createBook 2027 0 orwellUnavailable [])))).
Proof.
  destruct (shelves_follow_transitions anyText) as [_ [H2 [H3 H4]]].
  split; [|split].
  - destruct (H3 100 firstId reader (shelf 2027) eq_refl) as [b' [_ [A B]]].
    exists b'. split; [exact A|exact B].
  - destruct (H4 500 firstId (lentShelf 2027) eq_refl) as [b' [_ [A B]]].
    exists b'. split; [exact A|exact B].
  - eexists. split; [vm_compute; left; reflexivity|].
    apply H2; [vm_compute; left; reflexivity|reflexivity|reflexivity].
Defined.

(** X13 on the three sample books with Orwell lent: [available=yes]
    lists Orwell. *)
Lemma list_available_is_a_string_witness :
  exists l,
    getAllBooks anyText yes (lentThree 2027)
      = (mkReply 200 true (Some (List.length l)) (Docs l) None None, lentThree 2027)
    /\ List.length l = 1%nat
    /\ (forall b, In b l <-> In b (lentThree 2027) /\ available b = false).
Proof.
  destruct (list_available_is_a_string anyText "yes" (lentThree 2027))
    as [l [E [D K]]].
  - discriminate.
  - exists l. split; [exact E|]. split; [rewrite D; reflexivity|exact K].
Defined.

(** X15 on sample data: Orwell is accepted on an empty shelf, and a
    second Gatsby is not. *)
Lemma create_accepts_exactly_witness :
  success (fst (createBook 2027 0 orwell [])) = true
  /\ ~ bodyValid 2027 true tooGood
  /\ snd (createBook 2027 10 gatsbyAgain (snd (createBook 2027 0 gatsby [])))
     = snd (createBook 2027 0 gatsby []).
Proof.
  split; [|split].
  - apply (proj1 (create_accepts_exactly 2027 0 orwell [])).
    split; [apply castFailures_nil; reflexivity|].
    split; [apply validatorFailures_nil; reflexivity|].
    intros i d Hi. discriminate Hi.
  - intros Hb.
    assert (success (fst (createBook 2027 0 tooGood [])) = true) as H.
    { apply (proj1 (create_accepts_exactly 2027 0 tooGood [])).
      split; [apply castFailures_nil; reflexivity|].
      split; [exact Hb|]. intros i d Hi. discriminate Hi. }
    discriminate H.
  - apply (proj2 (create_accepts_exactly 2027 10 gatsbyAgain
                    (snd (createBook 2027 0 gatsby [])))).
    reflexivity.
Defined.

Lemma lentThree_served : Served 2027 anyText (lentThree 2027).
Proof.
  apply (served_step 2027 anyText _ (Write (Borrow 100 secondId reader))).
  apply (served_step 2027 anyText _ (Write (Create 20 mockingbird))).
  apply (served_step 2027 anyText _ (Write (Create 10 orwell))).
  apply (served_step 2027 anyText _ (Write (Create 0 gatsby))).
  apply served_empty.
Defined.

(** X16 on the three sample books with Orwell lent. *)
Lemma served_records_are_valid_witness :
  exists b,
    lookup 2%N (lentThree 2027) = Some b
    /\ status b = "Borrowed" /\ schemaValid 2027 b.
Proof.
  eexists. split; [vm_compute; reflexivity|]. split; [reflexivity|].
  apply (served_records_are_valid 2027 anyText (lentThree 2027) lentThree_served).
  vm_compute. right. left. reflexivity.
Defined.

(** X17 on the three sample books with Orwell lent. *)
Lemma served_isbn_is_unique_witness :
  idsUnique (lentThree 2027) /\ isbnUnique (lentThree 2027)
  /\ List.length (lentThree 2027) = 3%nat.
Proof.
  destruct (served_isbn_is_unique 2027 anyText (lentThree 2027) lentThree_served)
    as [H1 H2].
  split; [exact H1|]. split; [exact H2|reflexivity].
Defined.

(** X18 on the three sample books, two to a page: Lee and Orwell, then
    Gatsby. *)
Lemma pages_partition_the_listing_witness :
  List.concat
    (map (fun p => books (fst (listBooks anyText None (Some (Pos.of_nat p))
                                 (Some 2%positive) (threeBooks 2027))))
         (seq 1 2))
  = sortNewestFirst (threeBooks 2027)
  /\ map title (sortNewestFirst (threeBooks 2027))
     = ["To Kill a Mockingbird"; "1984"; "The Great Gatsby"].
Proof.
  destruct (pages_partition_the_listing anyText None (Some 2%positive)
              (threeBooks 2027)) as [H _].
  split; [|reflexivity].
  etransitivity; [exact H|]. reflexivity.
Defined.

(** X19 on the three sample books, two to a page. *)
Lemma page_sizes_witness :
  List.length (books (fst (listBooks anyText None (Some 1%positive)
                             (Some 2%positive) (threeBooks 2027)))) = 2%nat
  /\ books (fst (listBooks anyText None (Some 3%positive)
                   (Some 2%positive) (threeBooks 2027))) = []
  /\ totalPages (fst (listBooks anyText None (Some 1%positive)
                        (Some 2%positive) (threeBooks 2027))) = 2%nat
  /\ totalPages (fst (listBooks anyText None None None [])) = 0%nat.
Proof.
  destruct (page_sizes anyText None (Some 1%positive) (Some 2%positive)
              (threeBooks 2027)) as [_ [H2 _]].
  destruct (page_sizes anyText None (Some 3%positive) (Some 2%positive)
              (threeBooks 2027)) as [_ [_ [H3 _]]].
  destruct (page_sizes anyText None None None []) as [_ [_ [_ [_ [_ [H6 _]]]]]].
  split; [apply H2; vm_compute; lia|].
  split; [apply H3; vm_compute; lia|].
  split; [reflexivity|]. apply H6. reflexivity.
Defined.

(** X20 on the three sample books with Orwell lent: three cards, two of
    them available, as List counts them. *)
Lemma page_counts_follow_status_witness :
  getTotalBooks (loadBooksFromAPI anyText (lentThree 2027)) = 3%nat
  /\ getAvailableCount (loadBooksFromAPI anyText (lentThree 2027)) = 2%nat
  /\ count (fst (getAllBooks anyText (Query.mk None None None (Some "true") None)
                   (lentThree 2027)))
     = Some (getAvailableCount (loadBooksFromAPI anyText (lentThree 2027))).
Proof.
  destruct (page_counts_follow_status anyText (lentThree 2027)) as [H1 [H2 H3]].
  assert (forall b, In b (lentThree 2027) ->
            status b <> "" /\ (available b = true <-> status b = "Available"))
    as Hs.
  { intros b Hb. vm_compute in Hb.
    destruct Hb as [<-|[<-|[<-|[]]]]; (split; [discriminate|]);
      split; intros H; try reflexivity; discriminate H. }
  split; [rewrite H1; reflexivity|].
  split; [rewrite H2; [reflexivity|]; intros b Hb; now apply Hs|].
  now apply H3.
Defined.

(** X21 on sample data: a record with [available] false and status
    'Available' is shown as available. *)
Lemma cards_show_the_status_witness :
  (exists b,
      snd (createBook 2027 0 orwellUnavailable []) = [b]
      /\ available b = false
      /\ isAvailable (toClientBook b) = true)
  /\ (exists b',
        lookup 1%N (lentShelf 2027) = Some b'
        /\ getStatusClass (toClientBook b') = "checked-out").
Proof.
  destruct cards_show_the_status as [H1 [_ [H3 _]]].
  split.
  - eexists. split; [vm_compute; reflexivity|]. split; [reflexivity|].
    etransitivity; [apply H1; discriminate|]. reflexivity.
  - destruct (H3 100 firstId reader (shelf 2027) eq_refl) as [b' [E [_ C]]].
    exists b'. split; [|exact C].
    vm_compute in E. inversion E. reflexivity.
Defined.

(** X22 on sample data. *)
Lemma create_refusals_witness :
  createBook 2027 0 capAtOne [] = (MissingTitleOrAuthor, [])
  /\ createBook 2027 0 tooGood []
     = (fail 400 (Messages [Message "Rating cannot exceed 5"]), [])
  /\ exists vs,
       createBook 2027 0 blankTitle []
       = (fail 400 (Messages (Message "Book title is required" :: vs)), []).
Proof.
  split; [|split].
  - apply (proj1 (create_refusals 2027 0 capAtOne [])). reflexivity.
  - apply (proj1 (proj2 (create_refusals 2027 0 tooGood []))).
    + reflexivity.
    + discriminate.
  - apply (proj2 (proj2 (create_refusals 2027 0 blankTitle [])) "   ").
    + reflexivity.
    + discriminate.
    + reflexivity.
    + reflexivity.
Defined.

